(** * soundwave.py: a shallow embedding of [SoundWaveFactory]

    The class generates sine waves for named notes, writes them to WAV or
    text files, reads them back and normalises groups of waves.

    Modelling conventions.
    - A one-dimensional [np.int16] array is the list of its elements, each
      a [Z]; every operation that numpy performs in 16 bits has its
      wrap-around written out ([wrap16]).  The wave of an instance is an
      [ndarray]: one-dimensional, or zero-dimensional, which is what
      [np.loadtxt] returns for a file that holds a single value.
    - A [float64] value is the real number it denotes: the arithmetic of
      [get_normed_sin] and of the rescaling in [normalize_sound_waves] is
      real arithmetic, its rounding is not modelled.
    - A method is a function on the pair (instance, world); the world holds
      the files and the lines printed so far.  A raised exception keeps the
      assignments made before it.
    - Writing a file always succeeds; a path names a file, never a
      directory.
    [print_wave_details] takes the text of the mean amplitude, a formatted
    float64, as a parameter. *)

From Stdlib Require Import ZArith QArith Reals Qreals Lia Lra.
From Stdlib Require Import String Ascii List DecimalString DecimalZ.
From stdpp Require Import gmap strings list.

Open Scope string_scope.
Open Scope Z_scope.

(** ** Class constants (lines 14-17) *)

Definition SAMPLING_RATE : Z := 44100.
Definition DURATION_SECONDS : Z := 5.
Definition SOUND_ARRAY_LEN : Z := SAMPLING_RATE * DURATION_SECONDS.
Definition MAX_AMPLITUDE : Z := 2 ^ 13.

(** ** The note table (lines 20-118)

    The frequencies are the decimal literals of the source, kept as exact
    rationals. *)

Definition NOTES : gmap string Q := list_to_map [
  ("0", 0%Q);
  ("e0", 20.60172%Q); ("f0", 21.82676%Q); ("f#0", 23.12465%Q);
  ("g0", 24.49971%Q); ("g#0", 25.95654%Q); ("a0", 27.50000%Q);
  ("a#0", 29.13524%Q); ("b0", 30.86771%Q); ("c0", 32.70320%Q);
  ("c#0", 34.64783%Q); ("d0", 36.70810%Q); ("d#0", 38.89087%Q);
  ("e1", 41.20344%Q); ("f1", 43.65353%Q); ("f#1", 46.24930%Q);
  ("g1", 48.99943%Q); ("g#1", 51.91309%Q); ("a1", 55.00000%Q);
  ("a#1", 58.27047%Q); ("b1", 61.73541%Q); ("c1", 65.40639%Q);
  ("c#1", 69.29566%Q); ("d1", 73.41619%Q); ("d#1", 77.78175%Q);
  ("e2", 82.40689%Q); ("f2", 87.30706%Q); ("f#2", 92.49861%Q);
  ("g2", 97.99886%Q); ("g#2", 103.8262%Q); ("a2", 110.0000%Q);
  ("a#2", 116.5409%Q); ("b2", 123.4708%Q); ("c2", 130.8128%Q);
  ("c#2", 138.5913%Q); ("d2", 146.8324%Q); ("d#2", 155.5635%Q);
  ("e3", 164.8138%Q); ("f3", 174.6141%Q); ("f#3", 184.9972%Q);
  ("g3", 195.9977%Q); ("g#3", 207.6523%Q); ("a3", 220.0000%Q);
  ("a#3", 233.0819%Q); ("b3", 246.9417%Q); ("c3", 261.6256%Q);
  ("c#3", 277.1826%Q); ("d3", 293.6648%Q); ("d#3", 311.1270%Q);
  ("e4", 329.6276%Q); ("f4", 349.2282%Q); ("f#4", 369.9944%Q);
  ("g4", 391.9954%Q); ("g#4", 415.3047%Q); ("a4", 440.0000%Q);
  ("a#4", 466.1638%Q); ("b4", 493.8833%Q); ("c4", 523.2511%Q);
  ("c#4", 554.3653%Q); ("d4", 587.3295%Q); ("d#4", 622.2540%Q);
  ("e5", 659.2551%Q); ("f5", 698.4565%Q); ("f#5", 739.9888%Q);
  ("g5", 783.9909%Q); ("g#5", 830.6094%Q); ("a5", 880.0000%Q);
  ("a#5", 932.3275%Q); ("b5", 987.7666%Q); ("c5", 1046.502%Q);
  ("c#5", 1108.731%Q); ("d5", 1174.659%Q); ("d#5", 1244.508%Q);
  ("e6", 1318.510%Q); ("f6", 1396.913%Q); ("f#6", 1479.978%Q);
  ("g6", 1567.982%Q); ("g#6", 1661.219%Q); ("a6", 1760.000%Q);
  ("a#6", 1864.655%Q); ("b6", 1975.533%Q); ("c6", 2093.005%Q);
  ("c#6", 2217.461%Q); ("d6", 2349.318%Q); ("d#6", 2489.016%Q);
  ("e7", 2637.020%Q); ("f7", 2793.826%Q); ("f#7", 2959.955%Q);
  ("g7", 3135.963%Q); ("g#7", 3322.438%Q); ("a7", 3520.000%Q);
  ("a#7", 3729.310%Q); ("b7", 3951.066%Q); ("c7", 4186.009%Q);
  ("c#7", 4434.922%Q); ("d7", 4698.636%Q); ("d#7", 4978.032%Q)
].

(** ** Exceptions and results *)

Inductive exn : Type :=
  | ValueError (msg : string)
  | TypeError (msg : string)
  | IndexError (msg : string)
  | FileNotFoundError (msg : string).

Definition exn_str (e : exn) : string :=
  match e with
  | ValueError msg | TypeError msg | IndexError msg
  | FileNotFoundError msg => msg
  end.

Inductive outcome (A : Type) : Type :=
  | Return (a : A)
  | Raise (e : exn).
Arguments Return {A} a.
Arguments Raise {A} e.

(** ** Numbers: int16 and float64 *)

Definition int16_min : Z := -32768.
Definition int16_max : Z := 32767.

Definition is_int16 (z : Z) : Prop := int16_min <= z <= int16_max.

Definition is_int16b (z : Z) : bool := (int16_min <=? z) && (z <=? int16_max).

(** An int16 array as an instance stores it: the one-dimensional array of
    the samples [a], or the zero-dimensional array that holds the single
    value [x] and has no length. *)
Inductive ndarray : Type :=
  | Array1 (a : list Z)
  | Array0 (x : Z).

(** Two's-complement reduction of an integer to 16 bits. *)
Definition wrap16 (z : Z) : Z := (z + 32768) mod 65536 - 32768.

(** Truncation toward zero of a real. *)
Definition Rtrunc (x : R) : Z :=
  if Rle_dec 0 x then Int_part x else - Int_part (- x).

(** [a.astype(np.int16)] on a float64 array: each value is truncated toward
    zero; a value outside the int16 range keeps the low 16 bits of its
    truncation, which is what the C conversion gives on the usual
    platforms. *)
Definition astype_int16 (a : list R) : list Z :=
  map (fun x => wrap16 (Rtrunc x)) a.

(** [np.abs] on an int16 array: the result has dtype int16, so the absolute
    value of -32768 wraps back to -32768. *)
Definition np_abs (a : list Z) : list Z :=
  map (fun z => wrap16 (Z.abs z)) a.

(** [np.max]: raises on an empty array. *)
Definition np_max (a : list Z) : outcome Z :=
  match a with
  | [] => Raise (ValueError
      "zero-size array to reduction operation maximum which has no identity")
  | x :: a' => Return (foldr Z.max x a')
  end.

(** [np.linspace(start, stop, num=num)]: [num] evenly spaced values, both
    ends included. *)
Definition np_linspace (start stop : R) (num : nat) : list R :=
  map (fun i => (start + INR i * ((stop - start) / INR (num - 1)))%R)
      (seq 0 num).

(** ** Strings *)

(** [s.replace(old, new)] for one-character [old] and [new]. *)
Fixpoint replace (old new : ascii) (s : string) : string :=
  match s with
  | EmptyString => EmptyString
  | String c s' =>
      String (if Ascii.eqb c old then new else c) (replace old new s')
  end.

Definition upper_ascii (c : ascii) : ascii :=
  let n := nat_of_ascii c in
  if ((97 <=? n) && (n <=? 122))%nat then ascii_of_nat (n - 32) else c.

(** [s.upper()], on ASCII text. *)
Fixpoint upper (s : string) : string :=
  match s with
  | EmptyString => EmptyString
  | String c s' => String (upper_ascii c) (upper s')
  end.

(** ** The text format of [np.savetxt] and [np.loadtxt]

    [np.savetxt(file_name, a, fmt="%d")] writes every element of a
    one-dimensional array as a decimal integer followed by a newline.
    [np.loadtxt(file_name, dtype=np.int16)] is modelled on the files that
    call writes: one optionally signed decimal integer per line, blank
    lines skipped, and each value has to fit int16; any other content is
    unparsable in the model and raises (numpy also reads further syntax,
    such as several columns, comments and a leading '+').  numpy squeezes
    the result: the values come back as a one-dimensional array, except that
    a file of a single value comes back as a zero-dimensional array. *)

Definition newline : ascii := "010"%char.

(** Whether a text holds a line break. *)
Fixpoint has_newline (s : string) : bool :=
  match s with
  | EmptyString => false
  | String c s' => Ascii.eqb c newline || has_newline s'
  end.

(** ["%d" % z] *)
Definition format_d (z : Z) : string := NilZero.string_of_int (Z.to_int z).

Definition savetxt_content (a : list Z) : string :=
  foldr (fun z s => format_d z ++ String newline s) "" a.

(** The lines of a text; [cur] is the line being read. *)
Fixpoint split_lines (cur s : string) : list string :=
  match s with
  | EmptyString => if String.eqb cur "" then [] else [cur]
  | String c s' =>
      if Ascii.eqb c newline then cur :: split_lines "" s'
      else split_lines (cur ++ String c "") s'
  end.

Definition parse_int16 (field : string) : outcome Z :=
  match NilZero.int_of_string field with
  | Some d =>
      if is_int16b (Z.of_int d) then Return (Z.of_int d)
      else Raise (ValueError
        ("could not convert string '" ++ field ++ "' to int16"))
  | None =>
      Raise (ValueError
        ("could not convert string '" ++ field ++ "' to int16"))
  end.

Fixpoint parse_rows (rows : list string) : outcome (list Z) :=
  match rows with
  | [] => Return []
  | r :: rows' =>
      match parse_int16 r with
      | Raise e => Raise e
      | Return z =>
          match parse_rows rows' with
          | Raise e => Raise e
          | Return a => Return (z :: a)
          end
      end
  end.

(** The array of the parsed values, with the axes of length one removed. *)
Definition squeeze (values : list Z) : ndarray :=
  match values with
  | [x] => Array0 x
  | _ => Array1 values
  end.

Definition loadtxt_content (s : string) : outcome ndarray :=
  match parse_rows (List.filter (fun r => negb (String.eqb r ""))
                      (split_lines "" s)) with
  | Raise e => Raise e
  | Return values => Return (squeeze values)
  end.

(** ** Files, the world and the instance *)

Inductive file : Type :=
  | WavFile (rate : Z) (data : list Z)
  | TextFile (content : string).

Record World : Type := mkWorld {
  files : gmap string file;
  stdout : list string
}.

Record SoundWaveFactory : Type := mkFactory {
  common_timeline : list R;
  sound_wave : option ndarray;
  note : option string
}.

(** ** Methods as state transformers that may raise *)

Definition M (A : Type) : Type :=
  SoundWaveFactory * World -> outcome A * (SoundWaveFactory * World).

Definition ret {A} (a : A) : M A := fun st => (Return a, st).

Definition raise {A} (e : exn) : M A := fun st => (Raise e, st).

Definition bind {A B} (m : M A) (k : A -> M B) : M B :=
  fun st =>
    match m st with
    | (Return a, st') => k a st'
    | (Raise e, st') => (Raise e, st')
    end.

Notation "'let*' x ':=' m 'in' k" := (bind m (fun x => k))
  (at level 10, x pattern, m at level 100, k at level 200).

(** [try: m except Exception as e: h e]; what [m] assigned before raising
    stays assigned. *)
Definition try_except {A} (m : M A) (h : exn -> M A) : M A :=
  fun st =>
    match m st with
    | (Return a, st') => (Return a, st')
    | (Raise e, st') => h e st'
    end.

Definition lift {A} (o : outcome A) : M A := fun st => (o, st).

Definition get_self : M SoundWaveFactory := fun st => (Return (fst st), st).

Definition set_sound_wave (a : option ndarray) : M unit :=
  fun '(self, w) =>
    (Return tt, (mkFactory (common_timeline self) a (note self), w)).

Definition set_note (n : option string) : M unit :=
  fun '(self, w) =>
    (Return tt, (mkFactory (common_timeline self) (sound_wave self) n, w)).

Definition print (line : string) : M unit :=
  fun '(self, w) =>
    (Return tt, (self, mkWorld (files w) (stdout w ++ [line]))).

Definition os_path_exists (file_name : string) : M bool :=
  fun '(self, w) =>
    (Return (bool_decide (is_Some (files w !! file_name))), (self, w)).

(** [wavfile.write(file_name, rate, data)]: the file is opened for writing
    first; on a zero-dimensional array the channel count [data.shape[1]]
    then raises and the file is left empty. *)
Definition wavfile_write (file_name : string) (rate : Z) (data : ndarray)
    : M unit :=
  fun '(self, w) =>
    match data with
    | Array1 a =>
        (Return tt,
         (self, mkWorld (<[file_name := WavFile rate a]> (files w)) (stdout w)))
    | Array0 _ =>
        (Raise (IndexError "tuple index out of range"),
         (self, mkWorld (<[file_name := TextFile ""]> (files w)) (stdout w)))
    end.

(** [np.savetxt(file_name, a, fmt="%d")]: the file is created first; a
    zero-dimensional array is then refused and the file is left empty. *)
Definition np_savetxt (file_name : string) (a : ndarray) : M unit :=
  fun '(self, w) =>
    match a with
    | Array1 a =>
        (Return tt,
         (self,
          mkWorld (<[file_name := TextFile (savetxt_content a)]> (files w))
                  (stdout w)))
    | Array0 _ =>
        (Raise (ValueError "Expected 1D or 2D array, got 0D array instead"),
         (self, mkWorld (<[file_name := TextFile ""]> (files w)) (stdout w)))
    end.

Definition np_loadtxt (file_name : string) : M ndarray :=
  fun '(self, w) =>
    match files w !! file_name with
    | None => (Raise (FileNotFoundError (file_name ++ " not found.")), (self, w))
    | Some (TextFile content) => (loadtxt_content content, (self, w))
    | Some (WavFile _ _) =>
        (Raise (ValueError "could not convert string to int16"), (self, w))
    end.

(** ** The methods of [SoundWaveFactory] *)

(** Lines 120-126. *)
Definition __init__ : SoundWaveFactory :=
  mkFactory
    (np_linspace 0 (IZR DURATION_SECONDS) (Z.to_nat SOUND_ARRAY_LEN))
    None None.

(** Lines 128-130. *)
Definition get_normed_sin (timeline : list R) (frequency : R) : list R :=
  map (fun t => (IZR MAX_AMPLITUDE * sin (2 * PI * frequency * t))%R) timeline.

(** Lines 135-137: the membership test and the lookup of [get_soundwave]. *)
Definition resolve_frequency (note : string) : outcome Q :=
  match NOTES !! note with
  | None => Raise (ValueError ("Note '" ++ note ++ "' not found in NOTES."))
  | Some frequency => Return frequency
  end.

(** Lines 133-137. *)
Definition get_soundwave (timeline : list R) (note : string)
    : outcome (list R) :=
  match resolve_frequency note with
  | Raise e => Raise e
  | Return frequency => Return (get_normed_sin timeline (Q2R frequency))
  end.

(** Lines 149-153: the name of the WAV file. *)
Definition wav_file_name (note : string) (name : option string) : string :=
  match name with
  | None => replace "#" "s" (note ++ "_sin.wav")
  | Some name => name ++ ".wav"
  end.

(** Lines 140-156. *)
Definition create_note (note : string) (name : option string)
    (timeline : option (list R)) : M (list Z) :=
  let* self := get_self in
  let timeline :=
    match timeline with
    | None => common_timeline self
    | Some timeline => timeline
    end in
  let* _ := set_note (Some note) in
  let* a := lift (get_soundwave timeline note) in
  let wave := astype_int16 a in
  let* _ := set_sound_wave (Some (Array1 wave)) in
  let* _ := wavfile_write (wav_file_name note name) SAMPLING_RATE
              (Array1 wave) in
  ret wave.

(** Lines 159-168. *)
Definition read_wave_from_txt (file_name : string) : M unit :=
  let* found := os_path_exists file_name in
  if (found : bool) then
    try_except
      (let* a := np_loadtxt file_name in
       let* _ := set_sound_wave (Some a) in
       print ("Successfully loaded wave from " ++ file_name))
      (fun e =>
         print ("Error loading wave from " ++ file_name ++ ": " ++ exn_str e))
  else raise (FileNotFoundError (file_name ++ " not found.")).

(** Lines 227-239. *)
Definition save_wave (file_name file_type : string) : M unit :=
  let* self := get_self in
  match sound_wave self with
  | None => print "No sound wave to save."
  | Some a =>
      if String.eqb (upper file_type) "WAV" then
        let* _ := wavfile_write file_name SAMPLING_RATE a in
        print ("Wave saved as WAV file: " ++ file_name)
      else
        let* _ := np_savetxt file_name a in
        print ("Wave saved as text file: " ++ file_name)
  end.

(** ** Normalisation (lines 189-224) *)

(** An argument of [normalize_sound_waves]: a one-dimensional sample array
    or an instance. *)
Inductive source : Type :=
  | Raw (a : list Z)
  | Instance (f : SoundWaveFactory).

(** [wave.sound_wave if isinstance(wave, SoundWaveFactory) else wave] *)
Definition source_wave (wave : source) : option ndarray :=
  match wave with
  | Raw a => Some (Array1 a)
  | Instance f => sound_wave f
  end.

(** [len(x)], where [x] may be [None] or an array without a length. *)
Definition len (x : option ndarray) : outcome nat :=
  match x with
  | Some (Array1 a) => Return (length a)
  | Some (Array0 _) => Raise (TypeError "len() of unsized object")
  | None => Raise (TypeError "object of type 'NoneType' has no len()")
  end.

(** The generator of lines 198-199, consumed from left to right. *)
Fixpoint lengths (waves : list source) : outcome (list nat) :=
  match waves with
  | [] => Return []
  | wave :: rest =>
      match len (source_wave wave) with
      | Raise e => Raise e
      | Return n =>
          match lengths rest with
          | Raise e => Raise e
          | Return ns => Return (n :: ns)
          end
      end
  end.

(** [min(...)] *)
Definition py_min (ns : list nat) : outcome nat :=
  match ns with
  | [] => Raise (ValueError "min() arg is an empty sequence")
  | n :: ns' => Return (foldr Nat.min n ns')
  end.

(** Lines 214-220: the amplitude step on a trimmed wave. *)
Definition normalize_amplitude (trimmed_wave : list Z) : outcome (list Z) :=
  match np_max (np_abs trimmed_wave) with
  | Raise e => Raise e
  | Return max_amplitude =>
      if 0 <? max_amplitude then
        Return (astype_int16
          (map (fun s => (IZR s * (IZR MAX_AMPLITUDE / IZR max_amplitude))%R)
               trimmed_wave))
      else Return trimmed_wave
  end.

(** Lines 205-220: the body of the loop. *)
Definition normalize_one (min_length : nat) (wave : source)
    : outcome (list Z) :=
  match source_wave wave with
  | None => Raise (TypeError "'NoneType' object is not subscriptable")
  | Some (Array0 _) =>
      Raise (IndexError
        "too many indices for array: array is 0-dimensional, but 1 were indexed")
  | Some (Array1 sound_wave) =>
      normalize_amplitude (firstn min_length sound_wave)
  end.

(** Lines 202-222: the loop. *)
Fixpoint normalize_loop (min_length : nat) (waves : list source)
    : outcome (list (list Z)) :=
  match waves with
  | [] => Return []
  | wave :: rest =>
      match normalize_one min_length wave with
      | Raise e => Raise e
      | Return normalized_wave =>
          match normalize_loop min_length rest with
          | Raise e => Raise e
          | Return normalized_waves =>
              Return (normalized_wave :: normalized_waves)
          end
      end
  end.

(** Lines 189-224; the result [None] is the [return None] of line 194. *)
Definition normalize_sound_waves (waves : list source)
    : M (option (list (list Z))) :=
  match waves with
  | [] =>
      let* _ := print "No waves provided." in
      ret None
  | _ =>
      let* ns := lift (lengths waves) in
      let* min_length := lift (py_min ns) in
      let* normalized_waves := lift (normalize_loop min_length waves) in
      ret (Some normalized_waves)
  end.

(** ** Inspection (lines 171-186)

    The summary is one [print] of a text of seven lines.  The mean is a
    float64 printed with two decimals; its text is taken from
    [format_mean], everything else is computed. *)

(** [np.min]: raises on an empty array. *)
Definition np_min (a : list Z) : outcome Z :=
  match a with
  | [] => Raise (ValueError
      "zero-size array to reduction operation minimum which has no identity")
  | x :: a' => Return (foldr Z.min x a')
  end.

(** [f"{self.note}"]: the identifier, or the text of [None]. *)
Definition note_str (n : option string) : string :=
  match n with
  | Some s => s
  | None => "None"
  end.

Section Inspection.

(** [f"{np.mean(a):.2f}"] *)
Variable format_mean : list Z -> string.

Definition wave_details (self : SoundWaveFactory) (a : list Z)
    (max_amplitude min_amplitude : Z) : string :=
  "Details for the wave generated from note '" ++ note_str (note self)
    ++ "':" ++ String newline
    ("Duration: " ++ format_d DURATION_SECONDS ++ " seconds"
    ++ String newline
    ("Sampling Rate: " ++ format_d SAMPLING_RATE ++ " Hz"
    ++ String newline
    ("Number of Samples: " ++ format_d (Z.of_nat (length a))
    ++ String newline
    ("Max Amplitude: " ++ format_d max_amplitude
    ++ String newline
    ("Min Amplitude: " ++ format_d min_amplitude
    ++ String newline
    ("Mean Amplitude: " ++ format_mean a)))))).

Definition print_wave_details : M unit :=
  let* self := get_self in
  match sound_wave self with
  | None => print "No sound wave is loaded or generated yet."
  | Some (Array0 _) => raise (TypeError "len() of unsized object")
  | Some (Array1 a) =>
      let* max_amplitude := lift (np_max a) in
      let* min_amplitude := lift (np_min a) in
      print (wave_details self a max_amplitude min_amplitude)
  end.

End Inspection.

(** ** Predicates used in the statements *)

(** An argument whose wave, if it has one, is a one-dimensional array. *)
Definition sized (wave : source) : Prop :=
  forall x, source_wave wave <> Some (Array0 x).

(** The stored wave, when there is one, has int16 samples. *)
Definition stored_int16 (self : SoundWaveFactory) : Prop :=
  match sound_wave self with
  | Some (Array1 a) => Forall is_int16 a
  | Some (Array0 x) => is_int16 x
  | None => True
  end.

(** Whether a character occurs in a text. *)
Fixpoint occurs (c : ascii) (s : string) : bool :=
  match s with
  | EmptyString => false
  | String d s' => Ascii.eqb d c || occurs c s'
  end.


(** ** Example inputs *)

Definition empty_world : World := mkWorld ∅ [].

(** An instance that holds four samples, the extreme ones among them. *)
Definition loaded_factory : SoundWaveFactory :=
  mkFactory [] (Some (Array1 [1; -32768; 0; 32767])) (Some "a4").

(** A world with one text file whose second line is not a number. *)
Definition world_with_bad_file : World :=
  mkWorld {["notes.txt" := TextFile "12
abc
"]} [].


Definition silent_sources : list source :=
  [Raw [0; 0; 0]; Instance (mkFactory [] (Some (Array1 [0; 0])) None)].

Definition sources_with_empty_wave : list source := [Raw [3; -4]; Raw []].

(** * Properties *)

(** ** Numeric lemmas *)

Lemma wrap16_small (z : Z) : is_int16 z -> wrap16 z = z.
Proof.
  unfold is_int16, int16_min, int16_max, wrap16. intros Hz.
  rewrite Z.mod_small; lia.
Qed.

Lemma Int_part_range (x : R) (n : Z) :
  (0 <= x)%R -> (x <= IZR n)%R -> 0 <= Int_part x <= n.
Proof.
  intros H0 Hn. destruct (base_Int_part x) as [Hle Hgt]. split.
  - assert (Hlt : (IZR (-1) < IZR (Int_part x))%R) by lra.
    apply lt_IZR in Hlt. lia.
  - apply le_IZR. lra.
Qed.

Lemma Rtrunc_range (x : R) (n : Z) :
  (- IZR n <= x <= IZR n)%R -> - n <= Rtrunc x <= n.
Proof.
  intros [Hlo Hhi]. unfold Rtrunc. destruct (Rle_dec 0 x) as [Hx | Hx].
  - pose proof (Int_part_range x n Hx Hhi). lia.
  - assert (H : 0 <= Int_part (- x) <= n) by (apply Int_part_range; lra).
    lia.
Qed.

Lemma sample_bound (frequency t : R) :
  Z.abs (wrap16 (Rtrunc (IZR MAX_AMPLITUDE * sin (2 * PI * frequency * t))))
  <= MAX_AMPLITUDE.
Proof.
  pose proof (SIN_bound (2 * PI * frequency * t)) as [Hlo Hhi].
  assert (Hr : - MAX_AMPLITUDE
               <= Rtrunc (IZR MAX_AMPLITUDE * sin (2 * PI * frequency * t))
               <= MAX_AMPLITUDE).
  { apply Rtrunc_range. change (IZR MAX_AMPLITUDE) with 8192%R. lra. }
  change MAX_AMPLITUDE with 8192 in *.
  rewrite wrap16_small by (unfold is_int16, int16_min, int16_max; lia).
  lia.
Qed.

Lemma np_linspace_length (start stop : R) (num : nat) :
  length (np_linspace start stop num) = num.
Proof. unfold np_linspace. by rewrite length_map, length_seq. Qed.

Lemma get_normed_sin_bound (timeline : list R) (frequency : R) :
  Forall (fun s => Z.abs s <= MAX_AMPLITUDE)
         (astype_int16 (get_normed_sin timeline frequency)).
Proof.
  unfold astype_int16, get_normed_sin.
  induction timeline as [| t timeline IH]; simpl; constructor; auto.
  apply sample_bound.
Qed.

Lemma get_normed_sin_length (timeline : list R) (frequency : R) :
  length (astype_int16 (get_normed_sin timeline frequency)) = length timeline.
Proof. unfold astype_int16, get_normed_sin. by rewrite !length_map. Qed.

(** ** Generation *)

(** What [create_note] does on a note of the table. *)
Lemma create_note_known note frequency name timeline self w :
  NOTES !! note = Some frequency ->
  create_note note name timeline (self, w) =
    (Return (astype_int16 (get_normed_sin
               (match timeline with
                | None => common_timeline self
                | Some tl => tl
                end) (Q2R frequency))),
     (mkFactory (common_timeline self)
        (Some (Array1 (astype_int16 (get_normed_sin
                 (match timeline with
                  | None => common_timeline self
                  | Some tl => tl
                  end) (Q2R frequency)))))
        (Some note),
      mkWorld (<[wav_file_name note name :=
                   WavFile SAMPLING_RATE
                     (astype_int16 (get_normed_sin
                        (match timeline with
                         | None => common_timeline self
                         | Some tl => tl
                         end) (Q2R frequency)))]>
                 (files w))
              (stdout w))).
Proof.
  intros Hn.
  unfold create_note, bind, get_self, set_note, lift, get_soundwave,
    resolve_frequency, set_sound_wave, wavfile_write, ret.
  cbn [fst snd]. rewrite Hn. reflexivity.
Qed.

(** What [create_note] does on any other note: the exception leaves with
    the note already stored. *)
Lemma create_note_unknown note name timeline self w :
  NOTES !! note = None ->
  create_note note name timeline (self, w) =
    (Raise (ValueError ("Note '" ++ note ++ "' not found in NOTES.")),
     (mkFactory (common_timeline self) (sound_wave self) (Some note), w)).
Proof.
  intros Hn.
  unfold create_note, bind, get_self, set_note, lift, get_soundwave,
    resolve_frequency.
  cbn [fst snd]. rewrite Hn. reflexivity.
Qed.

Lemma default_timeline_length :
  Z.of_nat (length (common_timeline __init__)) = 220500.
Proof.
  unfold __init__. cbn [common_timeline]. rewrite np_linspace_length.
  rewrite Z2Nat.id; [reflexivity | discriminate].
Qed.

(** C1: for every note of the table, [create_note] on the default time base
    returns 220500 = SAMPLING_RATE * DURATION_SECONDS samples, each of
    absolute value at most MAX_AMPLITUDE = 8192. *)
Theorem create_note_length_and_bound
    (note : string) (frequency : Q) (name : option string)
    (self : SoundWaveFactory) (w : World) :
  NOTES !! note = Some frequency ->
  common_timeline self = common_timeline __init__ ->
  exists wave st,
    create_note note name None (self, w) = (Return wave, st)
    /\ Z.of_nat (length wave) = 220500
    /\ Z.of_nat (length wave) = SAMPLING_RATE * DURATION_SECONDS
    /\ MAX_AMPLITUDE = 8192
    /\ Forall (fun s => Z.abs s <= MAX_AMPLITUDE) wave.
Proof.
  intros Hn Htl. eexists _, _. split.
  { apply (create_note_known note frequency name None self w Hn). }
  rewrite get_normed_sin_length, Htl, default_timeline_length.
  repeat split; try reflexivity. apply get_normed_sin_bound.
Qed.

Lemma create_note_length_and_bound_witness :
  NOTES !! "a4" = Some 440.0000%Q
  /\ common_timeline __init__ = common_timeline __init__
  /\ exists wave st,
       create_note "a4" None None (__init__, empty_world) = (Return wave, st)
       /\ Z.of_nat (length wave) = 220500
       /\ Z.of_nat (length wave) = SAMPLING_RATE * DURATION_SECONDS
       /\ MAX_AMPLITUDE = 8192
       /\ Forall (fun s => Z.abs s <= MAX_AMPLITUDE) wave.
Proof.
  split; [vm_compute; reflexivity |]. split; [reflexivity |].
  apply (create_note_length_and_bound "a4" 440.0000%Q None __init__
           empty_world); [vm_compute; reflexivity | reflexivity].
Defined.

(** C2: frequency resolution is a function of the key alone; it gives 440.0
    for "a4" and 32.70320 for "c0", a value for every key of the table, and
    raises the unknown-note error ([ValueError]) for every other key, such
    as "z9". *)
Theorem resolve_frequency_table :
  resolve_frequency "a4" = Return 440.0000%Q
  /\ (440.0000 == 440)%Q
  /\ resolve_frequency "c0" = Return 32.70320%Q
  /\ resolve_frequency "z9" =
       Raise (ValueError "Note 'z9' not found in NOTES.")
  /\ (forall note, is_Some (NOTES !! note) ->
        exists frequency,
          NOTES !! note = Some frequency
          /\ resolve_frequency note = Return frequency
          /\ forall timeline,
               get_soundwave timeline note =
                 Return (get_normed_sin timeline (Q2R frequency)))
  /\ (forall note, NOTES !! note = None ->
        resolve_frequency note =
          Raise (ValueError ("Note '" ++ note ++ "' not found in NOTES."))
        /\ forall timeline,
             get_soundwave timeline note =
               Raise (ValueError ("Note '" ++ note ++ "' not found in NOTES."))).
Proof.
  split; [vm_compute; reflexivity |].
  split; [reflexivity |].
  split; [vm_compute; reflexivity |].
  split; [vm_compute; reflexivity |].
  split.
  - intros note [frequency Hn]. exists frequency.
    unfold get_soundwave, resolve_frequency. rewrite Hn. auto.
  - intros note Hn. unfold get_soundwave, resolve_frequency. rewrite Hn. auto.
Qed.

Lemma resolve_frequency_table_witness :
  NOTES !! "z9" = None
  /\ resolve_frequency "z9" = Raise (ValueError "Note 'z9' not found in NOTES.").
Proof.
  assert (Hn : NOTES !! "z9" = None) by (vm_compute; reflexivity).
  split; [exact Hn |].
  destruct resolve_frequency_table as (_ & _ & _ & _ & _ & H).
  exact (proj1 (H "z9" Hn)).
Defined.

(** C6: [create_note] on a note that is not in the table, here "z9", raises
    the unknown-note error and keeps the stored samples, but the stored note
    identifier has already been replaced by the unknown one. *)
Theorem create_note_unknown_stores_note (self : SoundWaveFactory) (w : World) :
  NOTES !! "z9" = None
  /\ exists self',
       create_note "z9" None None (self, w) =
         (Raise (ValueError "Note 'z9' not found in NOTES."), (self', w))
       /\ sound_wave self' = sound_wave self
       /\ note self' = Some "z9"
       /\ (note self <> Some "z9" -> note self' <> note self).
Proof.
  assert (Hn : NOTES !! "z9" = None) by (vm_compute; reflexivity).
  split; [exact Hn |]. eexists. split.
  { apply (create_note_unknown "z9" None None self w Hn). }
  cbn [sound_wave note]. repeat split; congruence.
Qed.

Lemma replace_app old new s t :
  replace old new (s ++ t) = replace old new s ++ replace old new t.
Proof. induction s as [| c s IH]; simpl; [reflexivity | by rewrite IH]. Qed.

(** C8: for a note of the table, [create_note] without a name writes the
    file "<note>_sin.wav" in which every '#' is replaced by 's' ("c#4" gives
    "cs4_sin.wav"); with a name it writes "<name>.wav". *)
Theorem create_note_file_name
    (note : string) (frequency : Q) (name : option string)
    (timeline : option (list R)) (self : SoundWaveFactory) (w : World) :
  NOTES !! note = Some frequency ->
  exists wave self' w',
    create_note note name timeline (self, w) = (Return wave, (self', w'))
    /\ files w' =
         <[match name with
           | None => replace "#" "s" (note ++ "_sin.wav")
           | Some name => name ++ ".wav"
           end := WavFile SAMPLING_RATE wave]> (files w)
    /\ replace "#" "s" (note ++ "_sin.wav") = replace "#" "s" note ++ "_sin.wav"
    /\ replace "#" "s" ("c#4" ++ "_sin.wav") = "cs4_sin.wav".
Proof.
  intros Hn. eexists _, _, _. split.
  { apply (create_note_known note frequency name timeline self w Hn). }
  cbn [files]. split; [reflexivity |]. split; [| reflexivity].
  apply replace_app.
Qed.

Lemma create_note_file_name_witness :
  NOTES !! "c#4" = Some 554.3653%Q
  /\ exists wave self' w',
       create_note "c#4" None (Some [0%R]) (__init__, empty_world) =
         (Return wave, (self', w'))
       /\ files w' =
            <[replace "#" "s" ("c#4" ++ "_sin.wav") :=
                WavFile SAMPLING_RATE wave]> (files empty_world)
       /\ replace "#" "s" ("c#4" ++ "_sin.wav")
          = replace "#" "s" "c#4" ++ "_sin.wav"
       /\ replace "#" "s" ("c#4" ++ "_sin.wav") = "cs4_sin.wav".
Proof.
  assert (Hn : NOTES !! "c#4" = Some 554.3653%Q) by (vm_compute; reflexivity).
  split; [exact Hn |].
  exact (create_note_file_name "c#4" 554.3653%Q None (Some [0%R]) __init__
           empty_world Hn).
Defined.

(** ** Normalisation *)

(** C9: [normalize_sound_waves] without arguments prints "No waves
    provided." and returns [None]; it does not raise. *)
Theorem normalize_no_waves (self : SoundWaveFactory) (w : World) :
  normalize_sound_waves [] (self, w) =
    (Return None,
     (self, mkWorld (files w) (stdout w ++ ["No waves provided."]))).
Proof. reflexivity. Qed.

Lemma lengths_absent_wave (waves : list source) (f : SoundWaveFactory) :
  Instance f ∈ waves -> sound_wave f = None ->
  exists msg,
    lengths waves = Raise (TypeError msg)
    /\ (msg = "object of type 'NoneType' has no len()"
        \/ msg = "len() of unsized object")
    /\ (Forall sized waves -> msg = "object of type 'NoneType' has no len()").
Proof.
  intros Hin Hf. induction waves as [| wave rest IH].
  - inversion Hin.
  - apply elem_of_cons in Hin. cbn [lengths].
    destruct Hin as [<- | Hin].
    + cbn [source_wave]. rewrite Hf. cbn [len].
      eexists. split; [reflexivity |]. split; [by left | reflexivity].
    + destruct (IH Hin) as (msg & Hl & Hmsg & Hsized).
      destruct (source_wave wave) as [[a | x] |] eqn:Hw; cbn [len].
      * rewrite Hl. exists msg. split; [reflexivity |]. split; [exact Hmsg |].
        intros Hall. apply Hsized. by inversion Hall.
      * eexists. split; [reflexivity |]. split; [by right |].
        intros Hall. inversion Hall as [| ? ? Hhead _]. by destruct (Hhead x).
      * eexists. split; [reflexivity |]. split; [by left | reflexivity].
Qed.

(** C10: when one of the arguments is an instance without a wave,
    [normalize_sound_waves] raises while it computes the minimum length (the
    [len] of [None] is a [TypeError]); it neither skips the argument nor
    returns [None].  The [TypeError] is the one of [len(None)], unless an
    earlier argument holds a zero-dimensional array, whose [len] raises the
    [TypeError] first. *)
Theorem normalize_absent_wave_raises
    (waves : list source) (f : SoundWaveFactory) (st : SoundWaveFactory * World) :
  Instance f ∈ waves -> sound_wave f = None ->
  exists msg,
    lengths waves = Raise (TypeError msg)
    /\ normalize_sound_waves waves st = (Raise (TypeError msg), st)
    /\ (msg = "object of type 'NoneType' has no len()"
        \/ msg = "len() of unsized object")
    /\ (Forall sized waves -> msg = "object of type 'NoneType' has no len()").
Proof.
  intros Hin Hf.
  destruct (lengths_absent_wave waves f Hin Hf) as (msg & Hl & Hmsg & Hsized).
  exists msg. split; [exact Hl |]. split; [| split; assumption].
  destruct waves as [| wave rest]; [inversion Hin |].
  unfold normalize_sound_waves, bind, lift. rewrite Hl. reflexivity.
Qed.

Lemma normalize_absent_wave_raises_witness :
  Instance __init__ ∈ [Raw [1; 2]; Instance __init__]
  /\ sound_wave __init__ = None
  /\ exists msg,
       lengths [Raw [1; 2]; Instance __init__] = Raise (TypeError msg)
       /\ normalize_sound_waves [Raw [1; 2]; Instance __init__]
            (__init__, empty_world) =
            (Raise (TypeError msg), (__init__, empty_world))
       /\ (msg = "object of type 'NoneType' has no len()"
           \/ msg = "len() of unsized object")
       /\ (Forall sized [Raw [1; 2]; Instance __init__] ->
           msg = "object of type 'NoneType' has no len()").
Proof.
  assert (Hin : Instance __init__ ∈ [Raw [1; 2]; Instance __init__]).
  { apply elem_of_cons. right. apply elem_of_cons. left. reflexivity. }
  split; [exact Hin |]. split; [reflexivity |].
  exact (normalize_absent_wave_raises [Raw [1; 2]; Instance __init__] __init__
           (__init__, empty_world) Hin eq_refl).
Defined.

(** ** The text format *)

Lemma append_cons (c : ascii) (s t : string) :
  String c s ++ t = String c (s ++ t).
Proof. reflexivity. Qed.

Lemma append_empty_r (s : string) : s ++ "" = s.
Proof.
  induction s as [| c s IH]; [reflexivity | by rewrite append_cons, IH].
Qed.

Lemma append_snoc (s t : string) (c : ascii) :
  (s ++ String c "") ++ t = s ++ String c t.
Proof.
  induction s as [| d s IH]; [reflexivity | by rewrite !append_cons, IH].
Qed.

Lemma split_lines_line (t cur rest : string) :
  has_newline t = false ->
  split_lines cur (t ++ String newline rest) = (cur ++ t) :: split_lines "" rest.
Proof.
  revert cur. induction t as [| c t IH]; intros cur Ht.
  - change ("" ++ String newline rest) with (String newline rest).
    simpl. by rewrite append_empty_r.
  - simpl in Ht. apply orb_false_iff in Ht as [Hc Ht].
    rewrite append_cons. simpl. rewrite Hc.
    rewrite (IH _ Ht). by rewrite append_snoc.
Qed.

Lemma string_of_uint_no_newline (d : Decimal.uint) :
  has_newline (NilEmpty.string_of_uint d) = false.
Proof. induction d; simpl; auto. Qed.

Lemma format_d_no_newline (z : Z) : has_newline (format_d z) = false.
Proof.
  unfold format_d, NilZero.string_of_int, NilZero.string_of_uint.
  destruct (Z.to_int z) as [d | d]; destruct d; simpl;
    auto using string_of_uint_no_newline.
Qed.

Lemma format_d_nonempty (z : Z) : String.eqb (format_d z) "" = false.
Proof.
  unfold format_d, NilZero.string_of_int, NilZero.string_of_uint.
  destruct (Z.to_int z) as [d | d]; destruct d; reflexivity.
Qed.

Lemma to_int_nonnil (z : Z) :
  Z.to_int z <> Decimal.Pos Decimal.Nil /\ Z.to_int z <> Decimal.Neg Decimal.Nil.
Proof.
  destruct z as [| p | p]; simpl; split; try discriminate;
    intros [= H]; exact (DecimalPos.Unsigned.to_uint_nonnil p H).
Qed.

Lemma is_int16b_true (z : Z) : is_int16 z -> is_int16b z = true.
Proof.
  unfold is_int16, is_int16b. intros [Hlo Hhi].
  apply andb_true_iff. split; apply Z.leb_le; assumption.
Qed.

(** Reading back a printed sample. *)
Lemma parse_format_d (z : Z) : is_int16 z -> parse_int16 (format_d z) = Return z.
Proof.
  intros Hz. unfold parse_int16, format_d.
  destruct (to_int_nonnil z) as [Hp Hn].
  rewrite (NilZero.isi _ Hp Hn), DecimalZ.of_to, (is_int16b_true z Hz).
  reflexivity.
Qed.

Lemma split_lines_savetxt (a : list Z) :
  split_lines "" (savetxt_content a) = map format_d a.
Proof.
  induction a as [| z a IH]; simpl; [reflexivity |].
  rewrite (split_lines_line _ _ _ (format_d_no_newline z)), IH. reflexivity.
Qed.

Lemma filter_blank_format_d (a : list Z) :
  List.filter (fun r => negb (String.eqb r "")) (map format_d a)
  = map format_d a.
Proof.
  induction a as [| z a IH]; simpl; [reflexivity |].
  by rewrite format_d_nonempty, IH.
Qed.

Lemma parse_rows_format_d (a : list Z) :
  Forall is_int16 a -> parse_rows (map format_d a) = Return a.
Proof.
  induction 1 as [| z a Hz Ha IH]; simpl; [reflexivity |].
  by rewrite (parse_format_d z Hz), IH.
Qed.

(** What [np.loadtxt] reads from what [np.savetxt] wrote. *)
Lemma loadtxt_savetxt (a : list Z) :
  Forall is_int16 a ->
  loadtxt_content (savetxt_content a) = Return (squeeze a).
Proof.
  intros Ha. unfold loadtxt_content.
  rewrite split_lines_savetxt, filter_blank_format_d.
  rewrite (parse_rows_format_d a Ha). reflexivity.
Qed.

Lemma squeeze_sized (a : list Z) : length a <> 1%nat -> squeeze a = Array1 a.
Proof.
  intros Hlen. destruct a as [| x [| y rest]]; [reflexivity | | reflexivity].
  by destruct Hlen.
Qed.

(** ** Saving and loading *)

Lemma save_wave_txt file_name file_type self w a :
  sound_wave self = Some (Array1 a) ->
  String.eqb (upper file_type) "WAV" = false ->
  save_wave file_name file_type (self, w) =
    (Return tt,
     (self,
      mkWorld (<[file_name := TextFile (savetxt_content a)]> (files w))
              (stdout w ++ ["Wave saved as text file: " ++ file_name]))).
Proof.
  intros Ha Hty. unfold save_wave, bind, get_self. cbn [fst].
  rewrite Ha, Hty. reflexivity.
Qed.

Lemma read_wave_from_txt_text file_name self w content a :
  files w !! file_name = Some (TextFile content) ->
  loadtxt_content content = Return a ->
  read_wave_from_txt file_name (self, w) =
    (Return tt,
     (mkFactory (common_timeline self) (Some a) (note self),
      mkWorld (files w)
              (stdout w ++ ["Successfully loaded wave from " ++ file_name]))).
Proof.
  intros Hf Hc.
  unfold read_wave_from_txt, bind, os_path_exists.
  rewrite bool_decide_eq_true_2 by (rewrite Hf; eauto).
  unfold try_except, bind, np_loadtxt. rewrite Hf, Hc. reflexivity.
Qed.

(** Loading a file that [np.savetxt] wrote from a wave of int16 samples,
    into any instance. *)
Lemma read_saved_wave file_name other w' a :
  files w' !! file_name = Some (TextFile (savetxt_content a)) ->
  Forall is_int16 a ->
  read_wave_from_txt file_name (other, w') =
    (Return tt,
     (mkFactory (common_timeline other) (Some (squeeze a)) (note other),
      mkWorld (files w')
              (stdout w' ++ ["Successfully loaded wave from " ++ file_name]))).
Proof.
  intros Hf Hint.
  exact (read_wave_from_txt_text file_name other w' _ _ Hf
           (loadtxt_savetxt a Hint)).
Qed.




(** [np.loadtxt] reads; it changes neither the instance nor the world. *)
Lemma np_loadtxt_state file_name st :
  snd (np_loadtxt file_name st) = st.
Proof.
  destruct st as [self w]. unfold np_loadtxt.
  destruct (files w !! file_name) as [[rate data | content] |]; reflexivity.
Qed.

(** C7: [read_wave_from_txt] raises [FileNotFoundError] when the path does
    not exist.  When the file exists and [np.loadtxt] cannot parse it, the
    error is printed and swallowed: the call returns normally, and the
    instance (samples and note) and the files are as they were. *)
Theorem read_wave_from_txt_errors
    (file_name : string) (self : SoundWaveFactory) (w : World) :
  (files w !! file_name = None ->
   read_wave_from_txt file_name (self, w) =
     (Raise (FileNotFoundError (file_name ++ " not found.")), (self, w)))
  /\ (forall e,
        is_Some (files w !! file_name) ->
        fst (np_loadtxt file_name (self, w)) = Raise e ->
        read_wave_from_txt file_name (self, w) =
          (Return tt,
           (self,
            mkWorld (files w)
              (stdout w ++
                 ["Error loading wave from " ++ file_name ++ ": "
                    ++ exn_str e])))).
Proof.
  split.
  - intros Hf. unfold read_wave_from_txt, bind, os_path_exists.
    rewrite bool_decide_eq_false_2; [reflexivity |].
    rewrite Hf. intros [x Hx]. discriminate.
  - intros e Hf He. unfold read_wave_from_txt, bind, os_path_exists.
    rewrite bool_decide_eq_true_2 by exact Hf.
    unfold try_except, bind.
    pose proof (np_loadtxt_state file_name (self, w)) as Hst.
    destruct (np_loadtxt file_name (self, w)) as [o st].
    simpl in He, Hst. subst o st. reflexivity.
Qed.

Lemma read_wave_from_txt_errors_witness :
  (files world_with_bad_file !! "missing.txt" = None
   /\ read_wave_from_txt "missing.txt" (loaded_factory, world_with_bad_file) =
        (Raise (FileNotFoundError "missing.txt not found."),
         (loaded_factory, world_with_bad_file)))
  /\ (is_Some (files world_with_bad_file !! "notes.txt")
      /\ fst (np_loadtxt "notes.txt" (loaded_factory, world_with_bad_file)) =
           Raise (ValueError "could not convert string 'abc' to int16")
      /\ read_wave_from_txt "notes.txt" (loaded_factory, world_with_bad_file) =
           (Return tt,
            (loaded_factory,
             mkWorld (files world_with_bad_file)
               ["Error loading wave from notes.txt: could not convert string 'abc' to int16"]))).
Proof.
  assert (Hm : files world_with_bad_file !! "missing.txt" = None)
    by (vm_compute; reflexivity).
  assert (Hf : is_Some (files world_with_bad_file !! "notes.txt")).
  { eexists. vm_compute. reflexivity. }
  assert (He : fst (np_loadtxt "notes.txt" (loaded_factory, world_with_bad_file))
               = Raise (ValueError "could not convert string 'abc' to int16")).
  { vm_compute. reflexivity. }
  split.
  - split; [exact Hm |].
    exact (proj1 (read_wave_from_txt_errors "missing.txt" loaded_factory
                    world_with_bad_file) Hm).
  - split; [exact Hf |]. split; [exact He |].
    exact (proj2 (read_wave_from_txt_errors "notes.txt" loaded_factory
                    world_with_bad_file) _ Hf He).
Defined.

(** ** Normalisation: lengths and order *)

Lemma lengths_present (waves : list source) (arrays : list (list Z)) :
  Forall2 (fun wave a => source_wave wave = Some (Array1 a)) waves arrays ->
  lengths waves = Return (map (@length Z) arrays).
Proof.
  induction 1 as [| wave a waves arrays Hw _ IH]; simpl; [reflexivity |].
  rewrite Hw, IH. reflexivity.
Qed.

(** The result of [min] is a lower bound of its arguments and one of them. *)
Lemma foldr_min_spec (n : nat) (ns : list nat) :
  Forall (fun k => (foldr Nat.min n ns <= k)%nat) (n :: ns)
  /\ Exists (fun k => k = foldr Nat.min n ns) (n :: ns).
Proof.
  induction ns as [| k ns [IHle IHex]]; simpl.
  - split; [repeat constructor | by constructor].
  - split.
    + inversion IHle as [| ? ? Hn Hns]; subst.
      constructor; [lia |]. constructor; [lia |].
      eapply Forall_impl; [exact Hns |]. simpl. intros; lia.
    + destruct (Nat.min_spec k (foldr Nat.min n ns)) as [[_ ->] | [_ ->]].
      * apply Exists_cons_tl, Exists_cons_hd. reflexivity.
      * inversion IHex as [? ? Hh | ? ? Ht]; subst.
        -- by apply Exists_cons_hd.
        -- apply Exists_cons_tl, Exists_cons_tl. exact Ht.
Qed.

(** The amplitude step on a window with at least one sample: it returns a
    wave of the same length, either the window itself or the window
    rescaled by one factor and converted back to int16. *)
Lemma normalize_amplitude_nonempty (trimmed_wave : list Z) :
  trimmed_wave <> [] ->
  exists out,
    normalize_amplitude trimmed_wave = Return out
    /\ length out = length trimmed_wave
    /\ (out = trimmed_wave
        \/ exists ratio : R,
             out = astype_int16
                     (map (fun s => (IZR s * ratio)%R) trimmed_wave)).
Proof.
  intros Hne. unfold normalize_amplitude.
  destruct trimmed_wave as [| s rest]; [congruence |].
  change (np_max (np_abs (s :: rest)))
    with (Return (foldr Z.max (wrap16 (Z.abs s)) (np_abs rest))).
  cbv beta iota.
  destruct (0 <? _); eexists; (split; [reflexivity |]); split.
  - unfold astype_int16. by rewrite !length_map.
  - right. eexists. reflexivity.
  - reflexivity.
  - by left.
Qed.

Lemma normalize_loop_present
    (min_length : nat) (waves : list source) (arrays : list (list Z)) :
  Forall2 (fun wave a => source_wave wave = Some (Array1 a)) waves arrays ->
  Forall (fun a => firstn min_length a <> []) arrays ->
  exists outs,
    normalize_loop min_length waves = Return outs
    /\ Forall2 (fun a out =>
         normalize_amplitude (firstn min_length a) = Return out
         /\ length out = length (firstn min_length a)
         /\ (out = firstn min_length a
             \/ exists ratio : R,
                  out = astype_int16
                          (map (fun s => (IZR s * ratio)%R)
                               (firstn min_length a))))
         arrays outs.
Proof.
  induction 1 as [| wave a waves arrays Hw _ IH]; intros Hne.
  - exists []. split; [reflexivity | constructor].
  - inversion Hne as [| ? ? Ha Hrest]; subst.
    destruct (IH Hrest) as (outs & Hloop & Houts).
    destruct (normalize_amplitude_nonempty _ Ha) as (out & Hout & Hlen & Hval).
    exists (out :: outs). split.
    + simpl. unfold normalize_one. rewrite Hw, Hout, Hloop. reflexivity.
    + constructor; [auto | exact Houts].
Qed.

(** The shape of the result on arguments that all hold at least one
    sample. *)
Lemma normalize_shape
    (waves : list source) (arrays : list (list Z))
    (st : SoundWaveFactory * World) :
  waves <> [] ->
  Forall2 (fun wave a => source_wave wave = Some (Array1 a)) waves arrays ->
  Forall (fun a => a <> []) arrays ->
  exists (min_length : nat) (outs : list (list Z)),
    normalize_sound_waves waves st = (Return (Some outs), st)
    /\ Forall (fun a => (min_length <= length a)%nat) arrays
    /\ Exists (fun a => length a = min_length) arrays
    /\ length outs = length waves
    /\ Forall2 (fun a out =>
         normalize_amplitude (firstn min_length a) = Return out
         /\ length out = min_length
         /\ (out = firstn min_length a
             \/ exists ratio : R,
                  out = astype_int16
                          (map (fun s => (IZR s * ratio)%R)
                               (firstn min_length a))))
         arrays outs.
Proof.
  intros Hwaves Hsrc Hne.
  destruct Hsrc as [| wave a waves arrays Hw Hrest]; [congruence |].
  assert (Hsrc : Forall2 (fun wave a => source_wave wave = Some (Array1 a))
                   (wave :: waves) (a :: arrays))
    by (constructor; assumption).
  set (m := foldr Nat.min (length a) (map (@length Z) arrays)).
  destruct (foldr_min_spec (length a) (map (@length Z) arrays))
    as [Hle Hex]. fold m in Hle, Hex.
  change (length a :: map (@length Z) arrays)
    with (map (@length Z) (a :: arrays)) in Hle, Hex.
  rewrite List.Forall_map in Hle. rewrite List.Exists_map in Hex.
  assert (Hpos : (0 < m)%nat).
  { apply List.Exists_exists in Hex as (b & Hb & <-).
    rewrite List.Forall_forall in Hne. specialize (Hne b Hb).
    destruct b; [congruence | simpl; lia]. }
  assert (Htake : Forall (fun b => firstn m b <> []) (a :: arrays)).
  { rewrite List.Forall_forall in Hle |- *. intros b Hb Hnil.
    specialize (Hle b Hb). apply (f_equal (@length Z)) in Hnil.
    rewrite length_take in Hnil. simpl in Hnil. lia. }
  destruct (normalize_loop_present m _ _ Hsrc Htake) as (outs & Hloop & Houts).
  exists m, outs. split.
  { unfold normalize_sound_waves, bind, lift, ret.
    rewrite (lengths_present _ _ Hsrc). cbn [map py_min]. fold m.
    rewrite Hloop. reflexivity. }
  split; [exact Hle |]. split.
  { eapply List.Exists_impl; [| exact Hex]. simpl. intros; congruence. }
  split.
  { apply Forall2_length in Houts. apply Forall2_length in Hsrc. congruence. }
  clear Hloop Hsrc Htake Hex Hne Hpos. revert Hle Houts.
  generalize (a :: arrays). intros bs Hle Houts.
  induction Houts as [| b out bs outs (Hout & Hlen & Hval) _ IH]; constructor.
  - inversion Hle; subst. rewrite length_take in Hlen.
    repeat split; [exact Hout | lia | exact Hval].
  - inversion Hle; subst. auto.
Qed.




(** C4: the wave whose only sample is -32768 has peak absolute amplitude
    32768 > 0, yet [np.abs] wraps that sample back to -32768, the computed
    maximum is not positive, and the wave is returned as it is instead of
    being rescaled to a peak of MAX_AMPLITUDE. *)
Theorem normalize_int16_min_not_rescaled (st : SoundWaveFactory * World) :
  is_int16 (-32768)
  /\ Z.abs (-32768) = 32768
  /\ np_max (np_abs [-32768]) = Return (-32768)
  /\ normalize_sound_waves [Raw [-32768]] st = (Return (Some [[-32768]]), st)
  /\ normalize_sound_waves
       [Instance (mkFactory [] (Some (Array1 [-32768])) None)] st
     = (Return (Some [[-32768]]), st).
Proof.
  split; [unfold is_int16, int16_min, int16_max; lia |].
  repeat split; reflexivity.
Qed.

(** ** Normalisation: the amplitude step away from -32768

    On a window whose samples all lie in [-32767, 32767] the absolute values
    fit int16 and the step behaves as a peak normalisation.  The rescaling
    is real arithmetic here. *)

Lemma Rtrunc_IZR (z : Z) : Rtrunc (IZR z) = z.
Proof.
  assert (Hint : forall k, Int_part (IZR k) = k).
  { intros k. symmetry. apply Int_part_spec. lra. }
  unfold Rtrunc. destruct (Rle_dec 0 (IZR z)); [apply Hint |].
  rewrite <- opp_IZR, Hint. lia.
Qed.

Lemma rescale_range (s p : R) :
  (0 < p)%R -> (- p <= s <= p)%R ->
  (- IZR MAX_AMPLITUDE <= s * (IZR MAX_AMPLITUDE / p) <= IZR MAX_AMPLITUDE)%R.
Proof.
  intros Hp [Hlo Hhi]. change (IZR MAX_AMPLITUDE) with 8192%R.
  assert (E : (s * (8192 / p) * p = s * 8192)%R) by (field; lra).
  split; apply (Rmult_le_reg_r p); try lra; rewrite E; lra.
Qed.

Lemma rescale_sample_bound (s P : Z) :
  0 < P -> Z.abs s <= P ->
  Z.abs (wrap16 (Rtrunc (IZR s * (IZR MAX_AMPLITUDE / IZR P)))) <= MAX_AMPLITUDE.
Proof.
  intros HP Hs.
  assert (Hr : - MAX_AMPLITUDE
               <= Rtrunc (IZR s * (IZR MAX_AMPLITUDE / IZR P))
               <= MAX_AMPLITUDE).
  { apply Rtrunc_range, rescale_range.
    - apply (IZR_lt 0 P HP).
    - rewrite <- opp_IZR. split; apply IZR_le; lia. }
  change MAX_AMPLITUDE with 8192 in *.
  rewrite wrap16_small by (unfold is_int16, int16_min, int16_max; lia).
  lia.
Qed.

Lemma rescale_sample_peak (s P : Z) :
  0 < P -> Z.abs s = P ->
  Z.abs (wrap16 (Rtrunc (IZR s * (IZR MAX_AMPLITUDE / IZR P)))) = MAX_AMPLITUDE.
Proof.
  intros HP Hs. pose proof (IZR_lt 0 P HP) as Hp.
  assert (E : (IZR s * (IZR MAX_AMPLITUDE / IZR P))%R = IZR MAX_AMPLITUDE
              \/ (IZR s * (IZR MAX_AMPLITUDE / IZR P))%R = IZR (- MAX_AMPLITUDE)).
  { destruct (Z.abs_spec s) as [[_ Habs] | [_ Habs]].
    - left. replace s with P by lia. field. lra.
    - right. replace s with (- P) by lia. rewrite !opp_IZR. field. lra. }
  destruct E as [-> | ->]; rewrite Rtrunc_IZR; reflexivity.
Qed.

Lemma foldr_max_spec (x : Z) (l : list Z) :
  Forall (fun k => k <= foldr Z.max x l) (x :: l)
  /\ Exists (fun k => k = foldr Z.max x l) (x :: l).
Proof.
  induction l as [| k l [IHle IHex]]; simpl.
  - split; [repeat constructor; lia | by constructor].
  - split.
    + inversion IHle as [| ? ? Hx Hl]; subst.
      constructor; [lia |]. constructor; [lia |].
      eapply Forall_impl; [exact Hl |]. simpl. intros; lia.
    + destruct (Z.max_spec k (foldr Z.max x l)) as [[_ ->] | [_ ->]].
      * inversion IHex as [? ? Hh | ? ? Ht]; subst.
        -- by apply Exists_cons_hd.
        -- apply Exists_cons_tl, Exists_cons_tl. exact Ht.
      * apply Exists_cons_tl, Exists_cons_hd. reflexivity.
Qed.

Lemma np_abs_fits (a : list Z) :
  Forall (fun s => -32767 <= s <= 32767) a -> np_abs a = map Z.abs a.
Proof.
  unfold np_abs. induction 1 as [| s a Hs _ IH]; cbn [map]; [reflexivity |].
  rewrite wrap16_small by (unfold is_int16, int16_min, int16_max; lia).
  by rewrite IH.
Qed.

(** Peak normalisation of a window without the sample -32768: with a
    positive peak every sample is multiplied by MAX_AMPLITUDE / peak and
    truncated, the results stay within MAX_AMPLITUDE and the loudest sample
    reaches it; with peak 0 the window is returned as it is. *)
Lemma normalize_amplitude_peak (s0 : Z) (rest : list Z) :
  Forall (fun s => -32767 <= s <= 32767) (s0 :: rest) ->
  (0 < foldr Z.max (Z.abs s0) (map Z.abs rest) ->
   exists out,
     normalize_amplitude (s0 :: rest) = Return out
     /\ out = astype_int16
                (map (fun s =>
                        (IZR s * (IZR MAX_AMPLITUDE
                                  / IZR (foldr Z.max (Z.abs s0)
                                           (map Z.abs rest))))%R)
                     (s0 :: rest))
     /\ Forall (fun o => Z.abs o <= MAX_AMPLITUDE) out
     /\ Exists (fun o => Z.abs o = MAX_AMPLITUDE) out)
  /\ (foldr Z.max (Z.abs s0) (map Z.abs rest) <= 0 ->
      normalize_amplitude (s0 :: rest) = Return (s0 :: rest)).
Proof.
  intros Hfit. set (P := foldr Z.max (Z.abs s0) (map Z.abs rest)).
  assert (Hmax : np_max (np_abs (s0 :: rest)) = Return P).
  { rewrite (np_abs_fits _ Hfit). reflexivity. }
  destruct (foldr_max_spec (Z.abs s0) (map Z.abs rest)) as [Hle Hex].
  fold P in Hle, Hex.
  change (Z.abs s0 :: map Z.abs rest) with (map Z.abs (s0 :: rest)) in Hle, Hex.
  rewrite List.Forall_map in Hle. rewrite List.Exists_map in Hex.
  unfold normalize_amplitude. rewrite Hmax. split.
  - intros HP. apply Z.ltb_lt in HP as HPb. rewrite HPb.
    eexists. split; [reflexivity |]. split; [reflexivity |].
    unfold astype_int16. rewrite List.map_map. split.
    + rewrite List.Forall_map. eapply Forall_impl; [exact Hle |].
      intros s Hs. simpl in *. by apply rescale_sample_bound.
    + rewrite List.Exists_map. eapply List.Exists_impl; [| exact Hex].
      intros s Hs. simpl in *. by apply rescale_sample_peak.
  - intros HP. apply Z.ltb_ge in HP. rewrite HP. reflexivity.
Qed.

(** * Further properties *)

(** ** Samples are int16 *)

Lemma wrap16_is_int16 (z : Z) : is_int16 (wrap16 z).
Proof.
  unfold is_int16, int16_min, int16_max, wrap16.
  pose proof (Z.mod_pos_bound (z + 32768) 65536). lia.
Qed.

Lemma astype_int16_is_int16 (a : list R) : Forall is_int16 (astype_int16 a).
Proof.
  unfold astype_int16. rewrite List.Forall_map.
  apply List.Forall_forall. intros x _. apply wrap16_is_int16.
Qed.

Lemma parse_int16_is_int16 (field : string) (z : Z) :
  parse_int16 field = Return z -> is_int16 z.
Proof.
  unfold parse_int16. destruct (NilZero.int_of_string field) as [d |]; [| discriminate].
  destruct (is_int16b (Z.of_int d)) eqn:Hb; [| discriminate].
  intros [= <-]. unfold is_int16b in Hb. apply andb_true_iff in Hb as [Hlo Hhi].
  apply Z.leb_le in Hlo, Hhi. split; assumption.
Qed.

Lemma parse_rows_is_int16 (rows : list string) (a : list Z) :
  parse_rows rows = Return a -> Forall is_int16 a.
Proof.
  revert a. induction rows as [| r rows IH]; simpl; intros a.
  - intros [= <-]. constructor.
  - destruct (parse_int16 r) as [z |] eqn:Hr; [| discriminate].
    destruct (parse_rows rows) as [a' |]; [| discriminate].
    intros [= <-]. constructor; [exact (parse_int16_is_int16 r z Hr) | by apply IH].
Qed.

Lemma loadtxt_content_is_int16 (content : string) (a : ndarray) :
  loadtxt_content content = Return a ->
  exists values, a = squeeze values /\ Forall is_int16 values.
Proof.
  unfold loadtxt_content.
  destruct (parse_rows _) as [values | e] eqn:Hrows; [| discriminate].
  intros [= <-]. exists values. split; [reflexivity |].
  exact (parse_rows_is_int16 _ values Hrows).
Qed.

Lemma squeeze_is_int16 (values : list Z) (timeline : list R)
    (ident : option string) :
  Forall is_int16 values ->
  stored_int16 (mkFactory timeline (Some (squeeze values)) ident).
Proof.
  intros Hv. unfold stored_int16. cbn [sound_wave].
  destruct values as [| x [| y rest]]; cbn [squeeze]; [exact Hv | | exact Hv].
  by inversion Hv.
Qed.

(** ** Generation on any time base *)

(** X1: on a note of the table and any time base, [create_note] returns one
    int16 sample per timestamp, each within MAX_AMPLITUDE, stores these
    samples with the note in place of the previous state, keeps the default
    time base and prints nothing. *)
Theorem create_note_on_timeline
    (note : string) (frequency : Q) (name : option string)
    (timeline : list R) (self : SoundWaveFactory) (w : World) :
  NOTES !! note = Some frequency ->
  exists wave w',
    create_note note name (Some timeline) (self, w)
      = (Return wave,
         (mkFactory (common_timeline self) (Some (Array1 wave)) (Some note), w'))
    /\ length wave = length timeline
    /\ Forall (fun s => Z.abs s <= MAX_AMPLITUDE) wave
    /\ Forall is_int16 wave
    /\ stdout w' = stdout w.
Proof.
  intros Hn. eexists _, _. split.
  { apply (create_note_known note frequency name (Some timeline) self w Hn). }
  split; [apply get_normed_sin_length |].
  split; [apply get_normed_sin_bound |].
  split; [apply astype_int16_is_int16 | reflexivity].
Qed.

Lemma create_note_on_timeline_witness :
  NOTES !! "g4" = Some 391.9954%Q
  /\ exists wave w',
       create_note "g4" (Some "sol") (Some [0%R; 1%R])
         (loaded_factory, empty_world)
         = (Return wave,
            (mkFactory (common_timeline loaded_factory) (Some (Array1 wave))
               (Some "g4"), w'))
       /\ length wave = length [0%R; 1%R]
       /\ Forall (fun s => Z.abs s <= MAX_AMPLITUDE) wave
       /\ Forall is_int16 wave
       /\ stdout w' = stdout empty_world.
Proof.
  assert (Hn : NOTES !! "g4" = Some 391.9954%Q) by (vm_compute; reflexivity).
  split; [exact Hn |].
  exact (create_note_on_timeline "g4" 391.9954%Q (Some "sol") [0%R; 1%R]
           loaded_factory empty_world Hn).
Defined.

(** X2: for every note that is not in the table, [create_note] raises
    [ValueError] without writing a file or printing, and the stored samples
    and the time base are the ones from before the call. *)
Theorem create_note_unknown_writes_nothing
    (note : string) (name : option string) (timeline : option (list R))
    (self : SoundWaveFactory) (w : World) :
  NOTES !! note = None ->
  exists msg self',
    create_note note name timeline (self, w) = (Raise (ValueError msg), (self', w))
    /\ sound_wave self' = sound_wave self
    /\ common_timeline self' = common_timeline self.
Proof.
  intros Hn. eexists _, _. split.
  { apply (create_note_unknown note name timeline self w Hn). }
  split; reflexivity.
Qed.

Lemma create_note_unknown_writes_nothing_witness :
  NOTES !! "A4" = None
  /\ exists msg self',
       create_note "A4" None None (loaded_factory, world_with_bad_file)
         = (Raise (ValueError msg), (self', world_with_bad_file))
       /\ sound_wave self' = sound_wave loaded_factory
       /\ common_timeline self' = common_timeline loaded_factory.
Proof.
  assert (Hn : NOTES !! "A4" = None) by (vm_compute; reflexivity).
  split; [exact Hn |].
  exact (create_note_unknown_writes_nothing "A4" None None loaded_factory
           world_with_bad_file Hn).
Defined.

(** X3: generating the same note again changes nothing: the second call
    returns the same samples and leaves the instance and the files as the
    first call left them. *)
Theorem create_note_twice
    (note : string) (frequency : Q) (name : option string)
    (timeline : option (list R)) (st : SoundWaveFactory * World) :
  NOTES !! note = Some frequency ->
  create_note note name timeline (snd (create_note note name timeline st))
  = create_note note name timeline st.
Proof.
  intros Hn. destruct st as [self w].
  rewrite (create_note_known note frequency name timeline self w Hn).
  cbn [snd].
  rewrite (create_note_known note frequency name timeline _ _ Hn).
  cbn [common_timeline files stdout]. by rewrite insert_insert_eq.
Qed.

Lemma create_note_twice_witness :
  NOTES !! "c#4" = Some 554.3653%Q
  /\ create_note "c#4" None None
       (snd (create_note "c#4" None None (__init__, empty_world)))
     = create_note "c#4" None None (__init__, empty_world).
Proof.
  assert (Hn : NOTES !! "c#4" = Some 554.3653%Q) by (vm_compute; reflexivity).
  split; [exact Hn |].
  exact (create_note_twice "c#4" 554.3653%Q None None (__init__, empty_world) Hn).
Defined.

(** ** The default file name *)

Lemma occurs_replace (old new : ascii) (s : string) :
  new <> old -> occurs old (replace old new s) = false.
Proof.
  intros Hne. induction s as [| c s IH]; simpl; [reflexivity |].
  rewrite IH, orb_false_r.
  destruct (Ascii.eqb_spec c old) as [_ | Hc]; by apply Ascii.eqb_neq.
Qed.

Lemma occurs_app (c : ascii) (s t : string) :
  occurs c (s ++ t) = occurs c s || occurs c t.
Proof.
  induction s as [| d s IH]; [reflexivity |].
  rewrite append_cons. simpl. by rewrite IH, orb_assoc.
Qed.

Lemma replace_length (old new : ascii) (s : string) :
  String.length (replace old new s) = String.length s.
Proof. induction s as [| c s IH]; simpl; [reflexivity | by rewrite IH]. Qed.

Lemma replace_absent (old new : ascii) (s : string) :
  occurs old s = false -> replace old new s = s.
Proof.
  induction s as [| c s IH]; simpl; [reflexivity |].
  intros H. apply orb_false_iff in H as [Hc Hs]. by rewrite Hc, IH.
Qed.

Lemma append_length (s t : string) :
  String.length (s ++ t) = (String.length s + String.length t)%nat.
Proof.
  induction s as [| c s IH]; [reflexivity |].
  rewrite append_cons. simpl. by rewrite IH.
Qed.

(** A replacement can be undone when the new character did not occur. *)
Lemma replace_inj (old new : ascii) (s1 s2 : string) :
  occurs new s1 = false -> occurs new s2 = false ->
  replace old new s1 = replace old new s2 -> s1 = s2.
Proof.
  revert s2. induction s1 as [| c1 s1 IH]; intros [| c2 s2]; simpl;
    try discriminate; [reflexivity |].
  intros H1 H2 [= Hc Hs].
  apply orb_false_iff in H1 as [Hc1 H1]. apply orb_false_iff in H2 as [Hc2 H2].
  f_equal; [| by apply IH].
  apply Ascii.eqb_neq in Hc1, Hc2.
  destruct (Ascii.eqb_spec c1 old), (Ascii.eqb_spec c2 old); congruence.
Qed.

Lemma append_inj_r (s1 s2 t : string) : s1 ++ t = s2 ++ t -> s1 = s2.
Proof.
  intros H.
  assert (Hlen : String.length s1 = String.length s2).
  { apply (f_equal String.length) in H. rewrite !append_length in H. lia. }
  revert s2 H Hlen. induction s1 as [| c1 s1 IH]; intros [| c2 s2] H Hlen;
    try discriminate; [reflexivity |].
  rewrite !append_cons in H. injection H as -> H. injection Hlen as Hlen.
  f_equal. by apply IH.
Qed.

(** No identifier of the table holds the letter that replaces '#'. *)
Lemma notes_without_s (note : string) :
  is_Some (NOTES !! note) -> occurs "s" note = false.
Proof.
  intros [frequency Hn]. unfold NOTES in Hn.
  apply elem_of_list_to_map_2 in Hn.
  repeat (apply elem_of_cons in Hn as [Hn | Hn];
          [injection Hn as -> _; reflexivity |]).
  inversion Hn.
Qed.

(** X4: the file name that [create_note] derives from a note alone holds no
    '#', is eight characters longer than the note, and is the note followed
    by "_sin.wav" when the note holds no '#'. *)
Theorem default_file_name_shape (note : string) :
  occurs "#" (wav_file_name note None) = false
  /\ String.length (wav_file_name note None) = (String.length note + 8)%nat
  /\ (occurs "#" note = false -> wav_file_name note None = note ++ "_sin.wav").
Proof.
  unfold wav_file_name. split; [by apply occurs_replace |]. split.
  - by rewrite replace_length, append_length.
  - intros H. apply replace_absent. by rewrite occurs_app, H.
Qed.

Lemma default_file_name_shape_witness :
  occurs "#" "a4" = false /\ wav_file_name "a4" None = "a4" ++ "_sin.wav".
Proof.
  split; [reflexivity |].
  exact (proj2 (proj2 (default_file_name_shape "a4")) eq_refl).
Defined.

(** X5: two different notes of the table never share their default file
    name, so generating one note does not overwrite the file of another. *)
Theorem default_file_names_distinct (note1 note2 : string) :
  is_Some (NOTES !! note1) -> is_Some (NOTES !! note2) ->
  wav_file_name note1 None = wav_file_name note2 None -> note1 = note2.
Proof.
  intros H1 H2 Heq. unfold wav_file_name in Heq.
  rewrite !replace_app in Heq. apply append_inj_r in Heq.
  exact (replace_inj "#" "s" note1 note2 (notes_without_s note1 H1)
           (notes_without_s note2 H2) Heq).
Qed.

Lemma default_file_names_distinct_witness :
  is_Some (NOTES !! "c#4") /\ is_Some (NOTES !! "c#4")
  /\ wav_file_name "c#4" None = wav_file_name "c#4" None
  /\ "c#4" = "c#4".
Proof.
  assert (H1 : is_Some (NOTES !! "c#4")) by (eexists; vm_compute; reflexivity).
  split; [exact H1 |]. split; [exact H1 |]. split; [reflexivity |].
  exact (default_file_names_distinct "c#4" "c#4" H1 H1 eq_refl).
Defined.

(** ** Generating, saving and loading *)

(** The default time base has more than one timestamp. *)
Lemma default_timeline_sized : length (common_timeline __init__) <> 1%nat.
Proof.
  intros Hlen. pose proof default_timeline_length as Hdefault.
  rewrite Hlen in Hdefault. discriminate Hdefault.
Qed.

(** X6: a wave that [create_note] generated on a time base whose number
    of timestamps is not one (the default time base is one of these, by
    [default_timeline_sized]), saved as text under any path: the instance
    keeps the generated samples and the note, the file under the path holds
    the samples in decimal, one per line, and loading the path stores the
    generated samples sample for sample, in the generating instance, which
    keeps its note, as in any other instance, whose own note and time base
    stay. *)
Theorem create_save_read
    (ident : string) (frequency : Q) (name : option string)
    (timeline : option (list R)) (file_name file_type : string)
    (self : SoundWaveFactory) (w : World) :
  NOTES !! ident = Some frequency ->
  length (match timeline with
          | None => common_timeline self
          | Some tl => tl
          end) <> 1%nat ->
  String.eqb (upper file_type) "WAV" = false ->
  exists wave self1 w1 w2,
    create_note ident name timeline (self, w) = (Return wave, (self1, w1))
    /\ self1 =
         mkFactory (common_timeline self) (Some (Array1 wave)) (Some ident)
    /\ length wave = length (match timeline with
                             | None => common_timeline self
                             | Some tl => tl
                             end)
    /\ save_wave file_name file_type (self1, w1) = (Return tt, (self1, w2))
    /\ files w2 = <[file_name := TextFile (savetxt_content wave)]> (files w1)
    /\ split_lines "" (savetxt_content wave) = map format_d wave
    /\ read_wave_from_txt file_name (self1, w2) =
         (Return tt,
          (self1,
           mkWorld (files w2)
             (stdout w2 ++ ["Successfully loaded wave from " ++ file_name])))
    /\ forall other w',
         files w' !! file_name = files w2 !! file_name ->
         read_wave_from_txt file_name (other, w') =
           (Return tt,
            (mkFactory (common_timeline other) (Some (Array1 wave))
               (note other),
             mkWorld (files w')
               (stdout w' ++ ["Successfully loaded wave from " ++ file_name]))).
Proof.
  intros Hn Hlen Hty. eexists _, _, _, _. split.
  { apply (create_note_known ident frequency name timeline self w Hn). }
  split; [reflexivity |].
  split; [apply get_normed_sin_length |].
  split.
  { apply save_wave_txt; [reflexivity | exact Hty]. }
  cbn [files stdout]. split; [reflexivity |].
  split; [apply split_lines_savetxt |].
  set (wave := astype_int16 _).
  assert (Hwave : squeeze wave = Array1 wave).
  { apply squeeze_sized. unfold wave. by rewrite get_normed_sin_length. }
  assert (Hload : forall other w',
    files w' !! file_name =
      <[file_name := TextFile (savetxt_content wave)]>
        (<[wav_file_name ident name := WavFile SAMPLING_RATE wave]> (files w))
        !! file_name ->
    read_wave_from_txt file_name (other, w') =
      (Return tt,
       (mkFactory (common_timeline other) (Some (Array1 wave)) (note other),
        mkWorld (files w')
          (stdout w' ++ ["Successfully loaded wave from " ++ file_name])))).
  { intros other w' Hw'. rewrite lookup_insert_eq in Hw'.
    rewrite (read_saved_wave file_name other w' wave Hw'
               (astype_int16_is_int16 _)).
    by rewrite Hwave. }
  split; [| exact Hload].
  rewrite Hload by reflexivity. reflexivity.
Qed.

Lemma create_save_read_witness :
  NOTES !! "a4" = Some 440.0000%Q
  /\ length [0%R; 1%R] <> 1%nat
  /\ String.eqb (upper "txt") "WAV" = false
  /\ exists wave self1 w1 w2,
       create_note "a4" None (Some [0%R; 1%R]) (__init__, empty_world) =
         (Return wave, (self1, w1))
       /\ self1 =
            mkFactory (common_timeline __init__) (Some (Array1 wave))
              (Some "a4")
       /\ length wave = length [0%R; 1%R]
       /\ save_wave "a4_sin.txt" "txt" (self1, w1) = (Return tt, (self1, w2))
       /\ files w2 =
            <[ "a4_sin.txt" := TextFile (savetxt_content wave) ]> (files w1)
       /\ split_lines "" (savetxt_content wave) = map format_d wave
       /\ read_wave_from_txt "a4_sin.txt" (self1, w2) =
            (Return tt,
             (self1,
              mkWorld (files w2)
                (stdout w2 ++
                   ["Successfully loaded wave from " ++ "a4_sin.txt"])))
       /\ forall other w',
            files w' !! "a4_sin.txt" = files w2 !! "a4_sin.txt" ->
            read_wave_from_txt "a4_sin.txt" (other, w') =
              (Return tt,
               (mkFactory (common_timeline other) (Some (Array1 wave))
                  (note other),
                mkWorld (files w')
                  (stdout w' ++
                     ["Successfully loaded wave from " ++ "a4_sin.txt"]))).
Proof.
  assert (Hn : NOTES !! "a4" = Some 440.0000%Q) by (vm_compute; reflexivity).
  assert (Hlen : length [0%R; 1%R] <> 1%nat) by discriminate.
  split; [exact Hn |]. split; [exact Hlen |]. split; [reflexivity |].
  exact (create_save_read "a4" 440.0000%Q None (Some [0%R; 1%R]) "a4_sin.txt"
           "txt" __init__ empty_world Hn Hlen eq_refl).
Defined.

(** The instance that [read_wave_from_txt] leaves: the one it found, or
    that one with int16 samples from the file in place of its wave. *)
Lemma read_wave_from_txt_instance file_name self w :
  fst (snd (read_wave_from_txt file_name (self, w))) = self
  \/ exists values,
       Forall is_int16 values
       /\ fst (snd (read_wave_from_txt file_name (self, w)))
          = mkFactory (common_timeline self) (Some (squeeze values))
              (note self).
Proof.
  unfold read_wave_from_txt, bind, os_path_exists.
  destruct (files w !! file_name) as [f |] eqn:Hf.
  - rewrite bool_decide_eq_true_2 by eauto.
    unfold try_except, bind, np_loadtxt. rewrite Hf.
    destruct f as [rate data | content]; [by left |].
    destruct (loadtxt_content content) as [a | e] eqn:Hc; [| by left].
    destruct (loadtxt_content_is_int16 content a Hc) as (values & -> & Hv).
    right. exists values. split; [exact Hv | reflexivity].
  - rewrite bool_decide_eq_false_2; [by left |].
    intros [x Hx]. discriminate.
Qed.

(** X7: the stored wave always has int16 samples: a new instance stores no
    wave, and [create_note] and [read_wave_from_txt], the two methods that
    assign it, keep the property whether they succeed or fail. *)
Theorem stored_wave_stays_int16 (self : SoundWaveFactory) (w : World) :
  stored_int16 self ->
  stored_int16 __init__
  /\ (forall note name timeline,
        stored_int16 (fst (snd (create_note note name timeline (self, w)))))
  /\ (forall file_name,
        stored_int16 (fst (snd (read_wave_from_txt file_name (self, w))))).
Proof.
  intros Hself. split; [exact I |]. split.
  - intros note name timeline.
    destruct (NOTES !! note) as [frequency |] eqn:Hn.
    + rewrite (create_note_known note frequency name timeline self w Hn).
      apply astype_int16_is_int16.
    + rewrite (create_note_unknown note name timeline self w Hn).
      exact Hself.
  - intros file_name.
    destruct (read_wave_from_txt_instance file_name self w)
      as [-> | (values & Hv & ->)]; [exact Hself |].
    by apply squeeze_is_int16.
Qed.

Lemma stored_wave_stays_int16_witness :
  stored_int16 loaded_factory
  /\ stored_int16
       (fst (snd (read_wave_from_txt "notes.txt"
                    (loaded_factory, world_with_bad_file)))).
Proof.
  assert (H : stored_int16 loaded_factory).
  { repeat constructor; unfold int16_min, int16_max; lia. }
  split; [exact H |].
  exact (proj2 (proj2 (stored_wave_stays_int16 loaded_factory
                         world_with_bad_file H)) "notes.txt").
Defined.

(** ** Saving *)







(** ** Normalisation: what the result depends on *)

Lemma normalize_one_present min_length wave a :
  source_wave wave = Some (Array1 a) ->
  normalize_one min_length wave = normalize_amplitude (firstn min_length a).
Proof. intros Hw. unfold normalize_one. by rewrite Hw. Qed.

Lemma normalize_loop_arrays min_length waves arrays :
  Forall2 (fun wave a => source_wave wave = Some (Array1 a)) waves arrays ->
  normalize_loop min_length waves
  = normalize_loop min_length (map Raw arrays).
Proof.
  induction 1 as [| wave a waves arrays Hw _ IH]; simpl; [reflexivity |].
  rewrite (normalize_one_present _ _ _ Hw), IH. reflexivity.
Qed.

Lemma lengths_raw (arrays : list (list Z)) :
  lengths (map Raw arrays) = Return (map (@length Z) arrays).
Proof.
  apply lengths_present. induction arrays; constructor; auto.
Qed.

(** X9: an instance that holds a wave and that wave passed as a raw array
    are interchangeable arguments: the outcome of [normalize_sound_waves]
    depends on the waves alone, whether it returns or raises. *)
Theorem normalize_raw_or_instance
    (waves : list source) (arrays : list (list Z))
    (st : SoundWaveFactory * World) :
  Forall2 (fun wave a => source_wave wave = Some (Array1 a)) waves arrays ->
  normalize_sound_waves waves st = normalize_sound_waves (map Raw arrays) st.
Proof.
  intros Hsrc. destruct Hsrc as [| wave a waves arrays Hw Hrest];
    [reflexivity |].
  assert (Hsrc : Forall2 (fun wave a => source_wave wave = Some (Array1 a))
                   (wave :: waves) (a :: arrays))
    by (constructor; assumption).
  change (map Raw (a :: arrays)) with (Raw a :: map Raw arrays).
  unfold normalize_sound_waves, bind, lift, ret.
  change (Raw a :: map Raw arrays) with (map Raw (a :: arrays)).
  rewrite (lengths_present _ _ Hsrc), lengths_raw.
  cbn [map py_min]. by rewrite (normalize_loop_arrays _ _ _ Hsrc).
Qed.

Lemma normalize_raw_or_instance_witness :
  Forall2 (fun wave a => source_wave wave = Some (Array1 a))
    silent_sources [[0; 0; 0]; [0; 0]]
  /\ normalize_sound_waves silent_sources (loaded_factory, empty_world)
     = normalize_sound_waves (map Raw [[0; 0; 0]; [0; 0]])
         (loaded_factory, empty_world).
Proof.
  assert (H : Forall2 (fun wave a => source_wave wave = Some (Array1 a))
                silent_sources [[0; 0; 0]; [0; 0]]) by repeat constructor.
  split; [exact H |].
  exact (normalize_raw_or_instance silent_sources [[0; 0; 0]; [0; 0]]
           (loaded_factory, empty_world) H).
Defined.

(** X10: [normalize_sound_waves] only reads: whatever the arguments and
    whether it returns or raises, the instance and the files are as before,
    and it prints only when it is called without arguments. *)
Theorem normalize_reads_only
    (waves : list source) (self : SoundWaveFactory) (w : World) :
  fst (snd (normalize_sound_waves waves (self, w))) = self
  /\ files (snd (snd (normalize_sound_waves waves (self, w)))) = files w
  /\ (waves <> [] ->
      snd (normalize_sound_waves waves (self, w)) = (self, w)).
Proof.
  destruct waves as [| wave rest]; [repeat split; congruence |].
  unfold normalize_sound_waves, bind, lift, ret.
  destruct (lengths (wave :: rest)) as [ns | e]; [| repeat split].
  destruct (py_min ns) as [m | e]; [| repeat split].
  destruct (normalize_loop m (wave :: rest)); repeat split.
Qed.

Lemma normalize_reads_only_witness :
  sources_with_empty_wave <> []
  /\ snd (normalize_sound_waves sources_with_empty_wave
            (loaded_factory, world_with_bad_file))
     = (loaded_factory, world_with_bad_file).
Proof.
  assert (H : sources_with_empty_wave <> []) by discriminate.
  split; [exact H |].
  exact (proj2 (proj2 (normalize_reads_only sources_with_empty_wave
                         loaded_factory world_with_bad_file)) H).
Defined.

Lemma foldr_min_same (m : nat) (ns : list nat) :
  Forall (eq m) ns -> foldr Nat.min m ns = m.
Proof. induction 1 as [| n ns <- _ IH]; simpl; [reflexivity | lia]. Qed.

(** X11: only the first [min_length] samples of each wave count: the
    outcome is the one for the prefixes of the minimum length, passed as
    raw arrays. *)
Theorem normalize_ignores_tail
    (waves : list source) (arrays : list (list Z))
    (st : SoundWaveFactory * World) :
  waves <> [] ->
  Forall2 (fun wave a => source_wave wave = Some (Array1 a)) waves arrays ->
  exists min_length : nat,
    Forall (fun a => (min_length <= length a)%nat) arrays
    /\ Exists (fun a => length a = min_length) arrays
    /\ normalize_sound_waves waves st
       = normalize_sound_waves (map (fun a => Raw (firstn min_length a)) arrays)
           st.
Proof.
  intros Hwaves Hsrc.
  destruct Hsrc as [| wave a waves arrays Hw Hrest]; [congruence |].
  assert (Hsrc : Forall2 (fun wave a => source_wave wave = Some (Array1 a))
                   (wave :: waves) (a :: arrays))
    by (constructor; assumption).
  set (m := foldr Nat.min (length a) (map (@length Z) arrays)).
  destruct (foldr_min_spec (length a) (map (@length Z) arrays)) as [Hle Hex].
  fold m in Hle, Hex.
  change (length a :: map (@length Z) arrays)
    with (map (@length Z) (a :: arrays)) in Hle, Hex.
  rewrite List.Forall_map in Hle. rewrite List.Exists_map in Hex.
  exists m. split; [exact Hle |]. split.
  { eapply List.Exists_impl; [| exact Hex]. simpl. intros; congruence. }
  assert (Hlens : lengths (map (fun b => Raw (firstn m b)) (a :: arrays))
                  = Return (map (fun _ => m) (a :: arrays))).
  { rewrite <- (List.map_map (firstn m) Raw), lengths_raw, List.map_map.
    f_equal. apply List.map_ext_Forall.
    eapply Forall_impl; [exact Hle |]. simpl. intros b Hb.
    rewrite length_take. lia. }
  assert (Hloop : normalize_loop m (wave :: waves)
                  = normalize_loop m (map (fun b => Raw (firstn m b)) (a :: arrays))).
  { rewrite (normalize_loop_arrays _ _ _ Hsrc).
    generalize (a :: arrays). intros bs.
    induction bs as [| b bs IH]; [reflexivity |].
    cbn [map normalize_loop]. rewrite IH.
    unfold normalize_one. cbn [source_wave].
    by rewrite List.firstn_firstn, Nat.min_id. }
  change (map (fun b => Raw (firstn m b)) (a :: arrays))
    with (Raw (firstn m a) :: map (fun b => Raw (firstn m b)) arrays) in *.
  unfold normalize_sound_waves, bind, lift, ret.
  rewrite (lengths_present _ _ Hsrc), Hlens. cbn [map py_min]. fold m.
  rewrite foldr_min_same.
  - by rewrite Hloop.
  - rewrite List.Forall_map. apply List.Forall_forall. reflexivity.
Qed.

Lemma normalize_ignores_tail_witness :
  silent_sources <> []
  /\ Forall2 (fun wave a => source_wave wave = Some (Array1 a))
       silent_sources [[0; 0; 0]; [0; 0]]
  /\ exists min_length : nat,
       Forall (fun a => (min_length <= length a)%nat) [[0; 0; 0]; [0; 0]]
       /\ Exists (fun a => length a = min_length) [[0; 0; 0]; [0; 0]]
       /\ normalize_sound_waves silent_sources (loaded_factory, empty_world)
          = normalize_sound_waves
              (map (fun a => Raw (firstn min_length a)) [[0; 0; 0]; [0; 0]])
              (loaded_factory, empty_world).
Proof.
  assert (H1 : silent_sources <> []) by discriminate.
  assert (H2 : Forall2 (fun wave a => source_wave wave = Some (Array1 a))
                 silent_sources [[0; 0; 0]; [0; 0]]) by repeat constructor.
  split; [exact H1 |]. split; [exact H2 |].
  exact (normalize_ignores_tail silent_sources [[0; 0; 0]; [0; 0]]
           (loaded_factory, empty_world) H1 H2).
Defined.

(** ** Normalisation: the samples of the result *)


Lemma normalize_amplitude_bounded (window out : list Z) :
  Forall (fun s => -32767 <= s <= 32767) window ->
  normalize_amplitude window = Return out ->
  Forall (fun o => Z.abs o <= MAX_AMPLITUDE) out.
Proof.
  intros Hfit Hout. destruct window as [| s0 rest]; [discriminate Hout |].
  destruct (normalize_amplitude_peak s0 rest Hfit) as [Hpos Hzero].
  destruct (Z.lt_ge_cases 0 (foldr Z.max (Z.abs s0) (map Z.abs rest)))
    as [HP | HP].
  - destruct (Hpos HP) as (out' & Hout' & _ & Hb & _).
    rewrite Hout' in Hout. by injection Hout as <-.
  - rewrite (Hzero HP) in Hout. injection Hout as <-.
    destruct (foldr_max_spec (Z.abs s0) (map Z.abs rest)) as [Hle _].
    change (Z.abs s0 :: map Z.abs rest) with (map Z.abs (s0 :: rest)) in Hle.
    rewrite List.Forall_map in Hle.
    eapply Forall_impl; [exact Hle |]. simpl. intros s Hs.
    change MAX_AMPLITUDE with 8192. lia.
Qed.

(** What holds of every window holds of every result, when the amplitude
    step keeps it. *)
Lemma normalize_results_Forall
    (P Q : list Z -> Prop) (min_length : nat)
    (arrays outs : list (list Z)) :
  (forall a out,
     P a -> normalize_amplitude (firstn min_length a) = Return out -> Q out) ->
  Forall P arrays ->
  Forall2 (fun a out =>
     normalize_amplitude (firstn min_length a) = Return out
     /\ length out = min_length
     /\ (out = firstn min_length a
         \/ exists ratio : R,
              out = astype_int16
                      (map (fun s => (IZR s * ratio)%R) (firstn min_length a))))
    arrays outs ->
  Forall Q outs.
Proof.
  intros Hstep HP Houts. revert HP.
  induction Houts as [| a out arrays outs (Hout & _) _ IH]; intros HP;
    constructor; inversion HP; subst; eauto.
Qed.



(** X13: on arguments that each hold at least one sample and no sample
    -32768, every sample of every returned wave is within MAX_AMPLITUDE. *)
Theorem normalize_outputs_bounded
    (waves : list source) (arrays : list (list Z))
    (st : SoundWaveFactory * World) :
  waves <> [] ->
  Forall2 (fun wave a => source_wave wave = Some (Array1 a)) waves arrays ->
  Forall (fun a => a <> []) arrays ->
  Forall (Forall (fun s => -32767 <= s <= 32767)) arrays ->
  exists outs,
    normalize_sound_waves waves st = (Return (Some outs), st)
    /\ Forall (Forall (fun o => Z.abs o <= MAX_AMPLITUDE)) outs.
Proof.
  intros Hwaves Hsrc Hne Hfit.
  destruct (normalize_shape waves arrays st Hwaves Hsrc Hne)
    as (m & outs & Hrun & _ & _ & _ & Houts).
  exists outs. split; [exact Hrun |].
  apply (normalize_results_Forall
           (Forall (fun s => -32767 <= s <= 32767)) _ m arrays outs);
    [| exact Hfit | exact Houts].
  intros a out Ha. apply normalize_amplitude_bounded.
  by apply Forall_take.
Qed.

Lemma normalize_outputs_bounded_witness :
  [Raw [3; -4; 5]; Raw [100; -200]] <> []
  /\ Forall2 (fun wave a => source_wave wave = Some (Array1 a))
       [Raw [3; -4; 5]; Raw [100; -200]] [[3; -4; 5]; [100; -200]]
  /\ Forall (fun a => a <> []) [[3; -4; 5]; [100; -200]]
  /\ Forall (Forall (fun s => -32767 <= s <= 32767)) [[3; -4; 5]; [100; -200]]
  /\ exists outs,
       normalize_sound_waves [Raw [3; -4; 5]; Raw [100; -200]]
         (loaded_factory, empty_world)
         = (Return (Some outs), (loaded_factory, empty_world))
       /\ Forall (Forall (fun o => Z.abs o <= MAX_AMPLITUDE)) outs.
Proof.
  assert (H1 : [Raw [3; -4; 5]; Raw [100; -200]] <> []) by discriminate.
  assert (H2 : Forall2 (fun wave a => source_wave wave = Some (Array1 a))
                 [Raw [3; -4; 5]; Raw [100; -200]] [[3; -4; 5]; [100; -200]])
    by repeat constructor.
  assert (H3 : Forall (fun a : list Z => a <> []) [[3; -4; 5]; [100; -200]])
    by (repeat constructor; discriminate).
  assert (H4 : Forall (Forall (fun s => -32767 <= s <= 32767))
                 [[3; -4; 5]; [100; -200]])
    by (repeat constructor; lia).
  split; [exact H1 |]. split; [exact H2 |]. split; [exact H3 |].
  split; [exact H4 |].
  exact (normalize_outputs_bounded _ _ (loaded_factory, empty_world)
           H1 H2 H3 H4).
Defined.

(** ** Silence *)

Lemma get_normed_sin_zero (timeline : list R) :
  astype_int16 (get_normed_sin timeline (Q2R 0)) = map (fun _ => 0) timeline.
Proof.
  unfold astype_int16, get_normed_sin. rewrite List.map_map.
  apply List.map_ext. intros t.
  replace (2 * PI * Q2R 0 * t)%R with 0%R by (unfold Q2R; simpl; lra).
  rewrite sin_0, Rmult_0_r, Rtrunc_IZR. reflexivity.
Qed.

(** X14: the note "0", of frequency 0, generates silence: on every time
    base [create_note] returns and stores one sample 0 per timestamp. *)
Theorem zero_note_is_silent
    (name : option string) (timeline : list R)
    (self : SoundWaveFactory) (w : World) :
  exists wave st,
    create_note "0" name (Some timeline) (self, w) = (Return wave, st)
    /\ sound_wave (fst st) = Some (Array1 wave)
    /\ length wave = length timeline
    /\ Forall (eq 0) wave.
Proof.
  assert (Hn : NOTES !! "0" = Some 0%Q) by (vm_compute; reflexivity).
  eexists _, _. split.
  { apply (create_note_known "0" 0%Q name (Some timeline) self w Hn). }
  split; [reflexivity |]. rewrite get_normed_sin_zero, length_map.
  split; [reflexivity |].
  rewrite List.Forall_map. apply List.Forall_forall. reflexivity.
Qed.




(** ** Two generated notes *)

(** X16: two instances that each generated a note of the table on the
    default time base hold waves of 220500 samples each, and normalise to
    two waves of 220500 samples each, in the order of the arguments: the
    first result is the amplitude step applied to the whole wave of the
    first instance, the second result the one of the second instance. *)
Theorem normalize_generated_notes
    (note1 note2 : string) (frequency1 frequency2 : Q)
    (name1 name2 : option string) (self1 self2 : SoundWaveFactory)
    (w1 w2 : World) (st : SoundWaveFactory * World) :
  NOTES !! note1 = Some frequency1 ->
  NOTES !! note2 = Some frequency2 ->
  common_timeline self1 = common_timeline __init__ ->
  common_timeline self2 = common_timeline __init__ ->
  exists wave1 wave2 self1' self2' w1' w2' out1 out2,
    create_note note1 name1 None (self1, w1) = (Return wave1, (self1', w1'))
    /\ create_note note2 name2 None (self2, w2) = (Return wave2, (self2', w2'))
    /\ sound_wave self1' = Some (Array1 wave1)
    /\ sound_wave self2' = Some (Array1 wave2)
    /\ Z.of_nat (length wave1) = 220500
    /\ Z.of_nat (length wave2) = 220500
    /\ normalize_sound_waves [Instance self1'; Instance self2'] st
       = (Return (Some [out1; out2]), st)
    /\ normalize_amplitude wave1 = Return out1
    /\ normalize_amplitude wave2 = Return out2
    /\ Z.of_nat (length out1) = 220500
    /\ Z.of_nat (length out2) = 220500.
Proof.
  intros Hn1 Hn2 Ht1 Ht2.
  pose proof (create_note_known note1 frequency1 name1 None self1 w1 Hn1) as Hc1.
  pose proof (create_note_known note2 frequency2 name2 None self2 w2 Hn2) as Hc2.
  set (a1 := astype_int16 (get_normed_sin (common_timeline self1)
                             (Q2R frequency1))) in *.
  set (a2 := astype_int16 (get_normed_sin (common_timeline self2)
                             (Q2R frequency2))) in *.
  assert (Hl1 : Z.of_nat (length a1) = 220500).
  { unfold a1. rewrite get_normed_sin_length, Ht1.
    apply default_timeline_length. }
  assert (Hl2 : Z.of_nat (length a2) = 220500).
  { unfold a2. rewrite get_normed_sin_length, Ht2.
    apply default_timeline_length. }
  destruct (normalize_shape
              [Instance (mkFactory (common_timeline self1) (Some (Array1 a1)) (Some note1));
               Instance (mkFactory (common_timeline self2) (Some (Array1 a2)) (Some note2))]
              [a1; a2] st)
    as (m & outs & Hrun & Hle & Hex & _ & Houts).
  - discriminate.
  - repeat constructor.
  - repeat constructor; intros E; rewrite E in *; simpl in *; lia.
  - assert (Hm : Z.of_nat m = 220500).
    { inversion Hex as [? ? E | ? ? Hex']; subst; [lia |].
      inversion Hex' as [? ? E | ? ? Hex'']; subst; [lia |].
      inversion Hex''. }
    inversion Houts as [| ? out1 ? outs1 (Hn1' & Ho1 & _) Houts1]; subst.
    inversion Houts1 as [| ? out2 ? outs2 (Hn2' & Ho2 & _) Houts2]; subst.
    inversion Houts2; subst.
    rewrite firstn_all2 in Hn1' by lia.
    rewrite firstn_all2 in Hn2' by lia.
    eexists a1, a2, _, _, _, _, out1, out2.
    split; [exact Hc1 |]. split; [exact Hc2 |].
    split; [reflexivity |]. split; [reflexivity |].
    split; [exact Hl1 |]. split; [exact Hl2 |]. split; [exact Hrun |].
    split; [exact Hn1' |]. split; [exact Hn2' |].
    split; lia.
Qed.

Lemma normalize_generated_notes_witness :
  NOTES !! "a4" = Some 440.0000%Q
  /\ NOTES !! "g4" = Some 391.9954%Q
  /\ common_timeline __init__ = common_timeline __init__
  /\ exists wave1 wave2 self1' self2' w1' w2' out1 out2,
       create_note "a4" None None (__init__, empty_world)
         = (Return wave1, (self1', w1'))
       /\ create_note "g4" None None (__init__, empty_world)
          = (Return wave2, (self2', w2'))
       /\ sound_wave self1' = Some (Array1 wave1)
       /\ sound_wave self2' = Some (Array1 wave2)
       /\ Z.of_nat (length wave1) = 220500
       /\ Z.of_nat (length wave2) = 220500
       /\ normalize_sound_waves [Instance self1'; Instance self2']
            (__init__, empty_world)
          = (Return (Some [out1; out2]), (__init__, empty_world))
       /\ normalize_amplitude wave1 = Return out1
       /\ normalize_amplitude wave2 = Return out2
       /\ Z.of_nat (length out1) = 220500
       /\ Z.of_nat (length out2) = 220500.
Proof.
  assert (H1 : NOTES !! "a4" = Some 440.0000%Q) by (vm_compute; reflexivity).
  assert (H2 : NOTES !! "g4" = Some 391.9954%Q) by (vm_compute; reflexivity).
  split; [exact H1 |]. split; [exact H2 |]. split; [reflexivity |].
  exact (normalize_generated_notes "a4" "g4" 440.0000%Q 391.9954%Q None None
           __init__ __init__ empty_world empty_world (__init__, empty_world)
           H1 H2 eq_refl eq_refl).
Defined.

(** ** Inspection *)

Lemma foldr_Zmin_spec (x : Z) (l : list Z) :
  Forall (fun k => foldr Z.min x l <= k) (x :: l)
  /\ Exists (fun k => k = foldr Z.min x l) (x :: l).
Proof.
  induction l as [| k l [IHle IHex]]; simpl.
  - split; [repeat constructor; lia | by constructor].
  - split.
    + inversion IHle as [| ? ? Hx Hl]; subst.
      constructor; [lia |]. constructor; [lia |].
      eapply Forall_impl; [exact Hl |]. simpl. intros; lia.
    + destruct (Z.min_spec k (foldr Z.min x l)) as [[_ ->] | [_ ->]].
      * apply Exists_cons_tl, Exists_cons_hd. reflexivity.
      * inversion IHex as [? ? Hh | ? ? Ht]; subst.
        -- by apply Exists_cons_hd.
        -- apply Exists_cons_tl, Exists_cons_tl. exact Ht.
Qed.

(** What [print_wave_details] prints on a wave with samples. *)
Lemma print_wave_details_present
    (format_mean : list Z -> string) (self : SoundWaveFactory) (w : World)
    (a : list Z) :
  sound_wave self = Some (Array1 a) -> a <> [] ->
  exists max_amplitude min_amplitude,
    print_wave_details format_mean (self, w) =
      (Return tt,
       (self,
        mkWorld (files w)
          (stdout w ++
             [wave_details format_mean self a max_amplitude min_amplitude])))
    /\ In max_amplitude a /\ In min_amplitude a
    /\ Forall (fun s => min_amplitude <= s <= max_amplitude) a.
Proof.
  unfold print_wave_details, bind, get_self, lift. cbn [fst].
  intros -> Hne. destruct a as [| x l]; [congruence |].
  exists (foldr Z.max x l), (foldr Z.min x l).
  split; [reflexivity |].
  destruct (foldr_max_spec x l) as [Hmax Hmaxin].
  destruct (foldr_Zmin_spec x l) as [Hmin Hminin].
  split.
  { apply List.Exists_exists in Hmaxin as (k & Hk & ->). exact Hk. }
  split.
  { apply List.Exists_exists in Hminin as (k & Hk & ->). exact Hk. }
  rewrite List.Forall_forall in Hmax, Hmin |- *.
  intros s Hs. split; [exact (Hmin s Hs) | exact (Hmax s Hs)].
Qed.



(** ** The default time base *)

Lemma np_linspace_nth (start stop d : R) (num i : nat) :
  (i < num)%nat ->
  nth i (np_linspace start stop num) d
  = (start + INR i * ((stop - start) / INR (num - 1)))%R.
Proof.
  intros Hi. unfold np_linspace.
  set (f := fun k : nat =>
              (start + INR k * ((stop - start) / INR (num - 1)))%R).
  rewrite (nth_indep _ d (f 0%nat)) by (by rewrite length_map, length_seq).
  rewrite (List.map_nth f), List.seq_nth by exact Hi. reflexivity.
Qed.

(** X18: the time base of a new instance has 220500 timestamps, starts at
    0, ends at DURATION_SECONDS = 5 and is strictly increasing. *)
Theorem default_time_base :
  Z.of_nat (length (common_timeline __init__)) = SOUND_ARRAY_LEN
  /\ nth 0 (common_timeline __init__) 0%R = 0%R
  /\ nth (Z.to_nat (SOUND_ARRAY_LEN - 1)) (common_timeline __init__) 0%R
     = IZR DURATION_SECONDS
  /\ (forall i j : nat,
        (i < j)%nat -> Z.of_nat j < SOUND_ARRAY_LEN ->
        (nth i (common_timeline __init__) 0 < nth j (common_timeline __init__) 0)%R).
Proof.
  unfold __init__. cbn [common_timeline].
  remember SOUND_ARRAY_LEN as L eqn:HL. change (L = 220500) in HL.
  assert (Hnum : INR (Z.to_nat L - 1) = 220499%R).
  { rewrite INR_IZR_INZ. f_equal. lia. }
  assert (Hlast : INR (Z.to_nat (L - 1)) = 220499%R).
  { rewrite INR_IZR_INZ. f_equal. lia. }
  change (IZR DURATION_SECONDS) with 5%R.
  split; [rewrite np_linspace_length; lia |].
  split.
  { rewrite np_linspace_nth by lia. change (INR 0) with 0%R. lra. }
  split.
  { rewrite np_linspace_nth by lia. rewrite Hnum, Hlast. lra. }
  intros i j Hij Hj.
  rewrite !np_linspace_nth by lia. rewrite Hnum.
  apply lt_INR in Hij. nra.
Qed.

Lemma default_time_base_witness :
  (0 < 1)%nat /\ Z.of_nat 1 < SOUND_ARRAY_LEN
  /\ (nth 0 (common_timeline __init__) 0 < nth 1 (common_timeline __init__) 0)%R.
Proof.
  assert (H1 : (0 < 1)%nat) by lia.
  assert (H2 : Z.of_nat 1 < SOUND_ARRAY_LEN) by reflexivity.
  split; [exact H1 |]. split; [exact H2 |].
  destruct default_time_base as (_ & _ & _ & H).
  exact (H 0%nat 1%nat H1 H2).
Defined.

(** ** The note table *)

(** X19: the table has 97 entries; every frequency is non-negative, and the
    only entry of frequency 0 is the note "0". *)
Theorem notes_table_frequencies :
  size NOTES = 97%nat
  /\ forall note frequency,
       NOTES !! note = Some frequency ->
       (0 <= frequency)%Q /\ ((frequency == 0)%Q <-> note = "0").
Proof.
  split; [vm_compute; reflexivity |].
  intros note frequency Hn. unfold NOTES in Hn.
  apply elem_of_list_to_map_2 in Hn.
  repeat (apply elem_of_cons in Hn as [Hn | Hn];
          [injection Hn as -> ->;
           split; [unfold Qle; simpl; lia |];
           split; intros H;
             [first [reflexivity
                    | exfalso; unfold Qeq in H; simpl in H; lia]
             | first [unfold Qeq; reflexivity | discriminate H]] |]).
  inversion Hn.
Qed.

Lemma notes_table_frequencies_witness :
  NOTES !! "0" = Some 0%Q
  /\ (0 <= 0)%Q /\ ((0 == 0)%Q <-> "0" = "0").
Proof.
  assert (Hn : NOTES !! "0" = Some 0%Q) by (vm_compute; reflexivity).
  split; [exact Hn |].
  exact (proj2 notes_table_frequencies "0" 0%Q Hn).
Defined.

(** ** A generated wave, inspected *)

(** X20: after [create_note] on a note of the table and the default time
    base, [print_wave_details] returns and prints one text; it reports
    220500 samples, and the maximum and minimum it reports lie within
    MAX_AMPLITUDE. *)
Theorem create_then_print
    (format_mean : list Z -> string) (ident : string) (frequency : Q)
    (name : option string) (self : SoundWaveFactory) (w : World) :
  NOTES !! ident = Some frequency ->
  common_timeline self = common_timeline __init__ ->
  exists wave self1 w1 max_amplitude min_amplitude,
    create_note ident name None (self, w) = (Return wave, (self1, w1))
    /\ print_wave_details format_mean (self1, w1) =
         (Return tt,
          (self1,
           mkWorld (files w1)
             (stdout w1 ++
                [wave_details format_mean self1 wave
                   max_amplitude min_amplitude])))
    /\ format_d (Z.of_nat (length wave)) = "220500"
    /\ - MAX_AMPLITUDE <= min_amplitude
    /\ min_amplitude <= max_amplitude
    /\ max_amplitude <= MAX_AMPLITUDE.
Proof.
  intros Hn Htl.
  pose proof (create_note_known ident frequency name None self w Hn) as Hc.
  set (wave := astype_int16 (get_normed_sin (common_timeline self)
                               (Q2R frequency))) in *.
  assert (Hlen : Z.of_nat (length wave) = 220500).
  { unfold wave. rewrite get_normed_sin_length, Htl.
    apply default_timeline_length. }
  assert (Hne : wave <> []).
  { intros E. rewrite E in Hlen. discriminate Hlen. }
  assert (Hb : Forall (fun s => Z.abs s <= MAX_AMPLITUDE) wave)
    by apply get_normed_sin_bound.
  destruct (print_wave_details_present format_mean
              (mkFactory (common_timeline self) (Some (Array1 wave)) (Some ident))
              (mkWorld (<[wav_file_name ident name :=
                            WavFile SAMPLING_RATE wave]> (files w)) (stdout w))
              wave eq_refl Hne)
    as (mx & mn & Hp & Hmx & Hmn & Hall).
  rewrite List.Forall_forall in Hb, Hall.
  pose proof (Hb mx Hmx). pose proof (Hb mn Hmn). pose proof (Hall mx Hmx).
  eexists wave, _, _, mx, mn. split; [exact Hc |]. split; [exact Hp |].
  split; [rewrite Hlen; reflexivity |]. lia.
Qed.

Lemma create_then_print_witness :
  NOTES !! "a4" = Some 440.0000%Q
  /\ common_timeline __init__ = common_timeline __init__
  /\ exists wave self1 w1 max_amplitude min_amplitude,
       create_note "a4" None None (__init__, empty_world)
         = (Return wave, (self1, w1))
       /\ print_wave_details (fun _ => "0.00") (self1, w1) =
            (Return tt,
             (self1,
              mkWorld (files w1)
                (stdout w1 ++
                   [wave_details (fun _ => "0.00") self1 wave
                      max_amplitude min_amplitude])))
       /\ format_d (Z.of_nat (length wave)) = "220500"
       /\ - MAX_AMPLITUDE <= min_amplitude
       /\ min_amplitude <= max_amplitude
       /\ max_amplitude <= MAX_AMPLITUDE.
Proof.
  assert (Hn : NOTES !! "a4" = Some 440.0000%Q) by (vm_compute; reflexivity).
  split; [exact Hn |]. split; [reflexivity |].
  exact (create_then_print (fun _ => "0.00") "a4" 440.0000%Q None __init__
           empty_world Hn eq_refl).
Defined.

Lemma default_timeline_first : nth 0 (common_timeline __init__) 0%R = 0%R.
Proof.
  unfold __init__. cbn [common_timeline].
  remember SOUND_ARRAY_LEN as L eqn:HL. change (L = 220500) in HL.
  rewrite np_linspace_nth by lia. change (INR 0) with 0%R. lra.
Qed.

(** X21: every wave generated on the default time base starts with the
    sample 0, whatever the note. *)
Theorem generated_wave_starts_at_zero
    (ident : string) (frequency : Q) (name : option string)
    (self : SoundWaveFactory) (w : World) :
  NOTES !! ident = Some frequency ->
  common_timeline self = common_timeline __init__ ->
  exists wave st,
    create_note ident name None (self, w) = (Return wave, st)
    /\ wave <> []
    /\ nth 0 wave 1 = 0.
Proof.
  intros Hn Htl. eexists _, _. split.
  { apply (create_note_known ident frequency name None self w Hn). }
  rewrite Htl.
  assert (Hlen : Z.of_nat (length (common_timeline __init__)) = 220500)
    by apply default_timeline_length.
  pose proof default_timeline_first as Hfirst.
  destruct (common_timeline __init__) as [| t0 tl]; [discriminate Hlen |].
  simpl in Hfirst. subst t0. split; [discriminate |].
  unfold astype_int16, get_normed_sin. cbn [map nth].
  replace (2 * PI * Q2R frequency * 0)%R with 0%R by lra.
  rewrite sin_0, Rmult_0_r, Rtrunc_IZR. reflexivity.
Qed.

Lemma generated_wave_starts_at_zero_witness :
  NOTES !! "d#7" = Some 4978.032%Q
  /\ common_timeline __init__ = common_timeline __init__
  /\ exists wave st,
       create_note "d#7" None None (__init__, empty_world) = (Return wave, st)
       /\ wave <> []
       /\ nth 0 wave 1 = 0.
Proof.
  assert (Hn : NOTES !! "d#7" = Some 4978.032%Q) by (vm_compute; reflexivity).
  split; [exact Hn |]. split; [reflexivity |].
  exact (generated_wave_starts_at_zero "d#7" 4978.032%Q None __init__
           empty_world Hn eq_refl).
Defined.
